(** * Reputation toolkit of the NANDA TypeScript SDK

    A shallow embedding of [src/reputation/utils/algorithm.ts] (time decay,
    normalisation, outlier detection, confidence estimation and the weighted
    scoring algorithm), of [src/reputation/utils/storage.ts]
    ([LocalReputationStorage]), of the reputation client that drives them
    and of the parts of [src/reputation/types/types.ts] they use.

    TypeScript's [number] is kept abstract behind the interface [JsNumber]
    and the program is written once, over that interface.  It is then read
    at two instances:

    - [xreal]: real numbers extended with [+Infinity], [-Infinity] and
      [NaN].  Finite arithmetic is exact; the special values follow
      IEEE 754 / ECMAScript (a quotient by zero is an infinity or [NaN], a
      comparison with [NaN] is false).  Rounding error, overflow, underflow
      and the sign of zero are outside this instance.  The laws of the
      real-number reading are stated here, and say so.
    - [float]: the kernel's binary64 numbers, which are the values a
      JavaScript engine computes with.  Concrete inputs are evaluated
      here bit for bit, and what the program does with special values,
      quotients by zero and the clamp is proved here for every double.
      [Math.sqrt] is the correctly rounded root and [Math.pow] is
      [F64.fpow], which fixes the cases the standard or the engines
      determine and takes the rest as a parameter. *)

From Stdlib Require Import PrimFloat Uint63.
From Stdlib Require SpecFloat FloatOps FloatAxioms.
From Stdlib Require Import ZArith QArith Reals Lra Lia List String Sorted.
From stdpp Require Import base option list gmap strings.

Set Default Proof Using "Type".

(* ================================================================== *)
(** * 1. JavaScript numbers *)
(* ================================================================== *)

(** The operations on [number] that the sources use.  [lit] is a decimal
    literal of the program text. *)
Class JsNumber (num : Type) : Type := {
  lit    : Q -> num;                (* 0.5, 100, 2.5, ...            *)
  add    : num -> num -> num;       (* x + y                         *)
  sub    : num -> num -> num;       (* x - y                         *)
  mul    : num -> num -> num;       (* x * y                         *)
  div    : num -> num -> num;       (* x / y                         *)
  jsmin  : num -> num -> num;       (* Math.min(x, y)                *)
  jsmax  : num -> num -> num;       (* Math.max(x, y)                *)
  jsabs  : num -> num;              (* Math.abs(x)                   *)
  round  : num -> num;              (* Math.round(x)                 *)
  gtb    : num -> num -> bool;      (* x > y                         *)
  truthy : num -> bool              (* ToBoolean(x): not 0, not NaN  *)
}.

(** [Math.sqrt] and [Math.pow], which ECMAScript leaves
    implementation-approximated. *)
Class JsMath (num : Type) : Type := {
  jssqrt : num -> num;              (* Math.sqrt(x)                  *)
  jspow  : num -> num -> num        (* Math.pow(base, exponent)      *)
}.

(* ------------------------------------------------------------------ *)
(** ** 1.1 Extended reals *)
(* ------------------------------------------------------------------ *)

Inductive xreal : Type :=
| Fin (r : R)
| PInf
| NInf
| NaN.

Module XReal.

Local Open Scope R_scope.

(** Sign of a finite value; the only zero is the positive one. *)
Definition sgn (r : R) : comparison :=
  if Rlt_dec 0 r then Gt else if Rlt_dec r 0 then Lt else Eq.

Definition inf_of (c : comparison) : xreal :=
  match c with Gt => PInf | Lt => NInf | Eq => NaN end.

Definition xopp (x : xreal) : xreal :=
  match x with
  | Fin a => Fin (- a)
  | PInf => NInf
  | NInf => PInf
  | NaN => NaN
  end.

Definition xadd (x y : xreal) : xreal :=
  match x, y with
  | NaN, _ | _, NaN => NaN
  | Fin a, Fin b => Fin (a + b)
  | PInf, NInf | NInf, PInf => NaN
  | PInf, _ | _, PInf => PInf
  | NInf, _ | _, NInf => NInf
  end.

Definition xsub (x y : xreal) : xreal := xadd x (xopp y).

Definition xmul (x y : xreal) : xreal :=
  match x, y with
  | NaN, _ | _, NaN => NaN
  | Fin a, Fin b => Fin (a * b)
  | PInf, Fin b | Fin b, PInf => inf_of (sgn b)
  | NInf, Fin b | Fin b, NInf => inf_of (CompOpp (sgn b))
  | PInf, PInf | NInf, NInf => PInf
  | PInf, NInf | NInf, PInf => NInf
  end.

Definition xdiv (x y : xreal) : xreal :=
  match x, y with
  | NaN, _ | _, NaN => NaN
  | Fin a, Fin b =>
      if Req_dec_T b 0 then inf_of (sgn a) else Fin (a / b)
  | Fin _, (PInf | NInf) => Fin 0
  | PInf, Fin b => if Rlt_dec b 0 then NInf else PInf
  | NInf, Fin b => if Rlt_dec b 0 then PInf else NInf
  | (PInf | NInf), (PInf | NInf) => NaN
  end.

Definition xmin (x y : xreal) : xreal :=
  match x, y with
  | NaN, _ | _, NaN => NaN
  | NInf, _ | _, NInf => NInf
  | PInf, z | z, PInf => z
  | Fin a, Fin b => Fin (Rmin a b)
  end.

Definition xmax (x y : xreal) : xreal :=
  match x, y with
  | NaN, _ | _, NaN => NaN
  | PInf, _ | _, PInf => PInf
  | NInf, z | z, NInf => z
  | Fin a, Fin b => Fin (Rmax a b)
  end.

Definition xabs (x : xreal) : xreal :=
  match x with
  | Fin a => Fin (Rabs a)
  | PInf | NInf => PInf
  | NaN => NaN
  end.

(** [Math.round]: the nearest integer, a tie going towards [+Infinity]. *)
Definition Rround (a : R) : R := IZR (Zfloor (a + / 2)).

Definition xround (x : xreal) : xreal :=
  match x with
  | Fin a => Fin (Rround a)
  | _ => x
  end.

Definition xgtb (x y : xreal) : bool :=
  match x, y with
  | NaN, _ | _, NaN => false
  | Fin a, Fin b => if Rlt_dec b a then true else false
  | PInf, PInf => false
  | PInf, _ => true
  | _, NInf => match x with NInf => false | _ => true end
  | _, _ => false
  end.

Definition xtruthy (x : xreal) : bool :=
  match x with
  | Fin a => if Req_dec_T a 0 then false else true
  | PInf | NInf => true
  | NaN => false
  end.

Definition xsqrt (x : xreal) : xreal :=
  match x with
  | Fin a => if Rlt_dec a 0 then NaN else Fin (sqrt a)
  | PInf => PInf
  | NInf | NaN => NaN
  end.

(** Whether a real is an integer, and whether that integer is odd. *)
Definition is_int (e : R) : bool :=
  if Req_dec_T (IZR (Zfloor e)) e then true else false.

Definition is_odd_int (e : R) : bool := is_int e && Z.odd (Zfloor e).

(** [base ** exponent] for finite operands, [exponent <> 0]. *)
Definition Rpow (b e : R) : xreal :=
  match sgn b with
  | Gt => Fin (Rpower b e)
  | Eq => if Rlt_dec 0 e then Fin 0 else PInf
  | Lt => if is_int e then Fin (powerRZ b (Zfloor e)) else NaN
  end.

(** [Number::exponentiate] of ECMAScript. *)
Definition xpow (base exponent : xreal) : xreal :=
  match exponent with
  | NaN => NaN
  | Fin e =>
      if Req_dec_T e 0 then Fin 1 else
      match base with
      | NaN => NaN
      | PInf => if Rlt_dec 0 e then PInf else Fin 0
      | NInf =>
          if Rlt_dec 0 e
          then (if is_odd_int e then NInf else PInf)
          else Fin 0
      | Fin b => Rpow b e
      end
  | PInf =>
      match base with
      | NaN => NaN
      | PInf | NInf => PInf
      | Fin b =>
          if Rlt_dec 1 (Rabs b) then PInf
          else if Req_dec_T (Rabs b) 1 then NaN else Fin 0
      end
  | NInf =>
      match base with
      | NaN => NaN
      | PInf | NInf => Fin 0
      | Fin b =>
          if Rlt_dec 1 (Rabs b) then Fin 0
          else if Req_dec_T (Rabs b) 1 then NaN else PInf
      end
  end.

End XReal.

#[export] Instance xreal_number : JsNumber xreal := {|
  lit q  := Fin (Q2R q);
  add    := XReal.xadd;
  sub    := XReal.xsub;
  mul    := XReal.xmul;
  div    := XReal.xdiv;
  jsmin  := XReal.xmin;
  jsmax  := XReal.xmax;
  jsabs  := XReal.xabs;
  round  := XReal.xround;
  gtb    := XReal.xgtb;
  truthy := XReal.xtruthy
|}.

#[export] Instance xreal_math : JsMath xreal := {|
  jssqrt := XReal.xsqrt;
  jspow  := XReal.xpow
|}.

(* ------------------------------------------------------------------ *)
(** ** 1.2 binary64 *)
(* ------------------------------------------------------------------ *)

Module F64.

(** An integer of magnitude below 2^53 as a double (exact). *)
Definition of_Z (z : Z) : float :=
  match z with
  | Z0 => PrimFloat.zero
  | Zpos _ => PrimFloat.of_uint63 (Uint63.of_Z z)
  | Zneg p => PrimFloat.opp (PrimFloat.of_uint63 (Uint63.of_Z (Zpos p)))
  end.

(** A decimal literal [n/d]: the correctly rounded quotient of two exact
    integers is the double nearest to the decimal. *)
Definition of_Q (q : Q) : float :=
  PrimFloat.div (of_Z (Qnum q)) (of_Z (Zpos (Qden q))).

Definition is_neg_zero (x : float) : bool :=
  PrimFloat.is_zero x && PrimFloat.get_sign x.

Definition fmin (x y : float) : float :=
  if PrimFloat.is_nan x || PrimFloat.is_nan y then PrimFloat.nan
  else if PrimFloat.ltb x y then x
  else if PrimFloat.ltb y x then y
  else if is_neg_zero x then x else y.

Definition fmax (x y : float) : float :=
  if PrimFloat.is_nan x || PrimFloat.is_nan y then PrimFloat.nan
  else if PrimFloat.ltb x y then y
  else if PrimFloat.ltb y x then x
  else if is_neg_zero x then y else x.

Definition two52 : float := Eval vm_compute in of_Z (2 ^ 52).
Definition half : float := Eval vm_compute in of_Q (1 # 2).

(** Largest integer not above [x], for [|x| < 2^52]: adding and removing
    2^52 rounds [x] to an integer, which is then corrected downwards. *)
Definition ffloor (x : float) : float :=
  let r := if PrimFloat.leb PrimFloat.zero x
           then PrimFloat.sub (PrimFloat.add x two52) two52
           else PrimFloat.add (PrimFloat.sub x two52) two52 in
  if PrimFloat.leb r x then r else PrimFloat.sub r PrimFloat.one.

(** [Math.round]: NaN, the infinities and doubles of magnitude 2^52 or
    more (which are integers) are returned as they are; otherwise
    [floor x] or [floor x + 1], the latter when the fraction is at least
    one half.  A zero result takes the sign of [x]. *)
Definition fround (x : float) : float :=
  if PrimFloat.is_nan x || PrimFloat.is_infinity x then x
  else if PrimFloat.leb two52 (PrimFloat.abs x) then x
  else
    let f := ffloor x in
    let r := if PrimFloat.leb half (PrimFloat.sub x f)
             then PrimFloat.add f PrimFloat.one else f in
    if PrimFloat.is_zero r
    then (if PrimFloat.get_sign x then PrimFloat.neg_zero else PrimFloat.zero)
    else r.

Definition ftruthy (x : float) : bool :=
  negb (PrimFloat.is_nan x || PrimFloat.is_zero x).

(** The integer a double denotes, when it is a finite integer. *)
Definition to_integer (x : float) : option Z :=
  match FloatOps.Prim2SF x with
  | SpecFloat.S754_zero _ => Some 0%Z
  | SpecFloat.S754_finite s m e =>
      let z := if s then Zneg m else Zpos m in
      if (0 <=? e)%Z then Some (z * 2 ^ e)%Z
      else if (Zpos m mod 2 ^ (- e) =? 0)%Z then Some (z / 2 ^ (- e))%Z
      else None
  | _ => None
  end.

Definition is_odd_integer (x : float) : bool :=
  match to_integer x with Some n => Z.odd n | None => false end.

(** [Math.pow], that is [Number::exponentiate] of ECMAScript.  The
    special cases are the standard's.  Of the finite cases, which the
    standard leaves implementation-approximated, two are fixed here
    because the engines compute them exactly: an exponent of 2 is the
    rounded product [base * base], and an integer power of 0.5 is the
    power of two nearest to it, which is 0 from an exponent of 1075 on
    and [Infinity] from -1024 down.  These are the only shapes the
    sources use ([Math.pow(x, 2)] and [Math.pow(0.5, x)]).  Every other
    finite case is left to [approx], the engine's approximation, about
    which nothing is assumed. *)
Definition fpow (approx : float -> float -> float) (base exponent : float)
    : float :=
  if PrimFloat.is_nan exponent then PrimFloat.nan
  else if PrimFloat.is_zero exponent then PrimFloat.one
  else if PrimFloat.is_nan base then PrimFloat.nan
  else if PrimFloat.eqb exponent PrimFloat.two then PrimFloat.mul base base
  else if PrimFloat.is_infinity base || PrimFloat.is_zero base then
    let large := xorb (PrimFloat.is_infinity base)
                      (PrimFloat.ltb exponent PrimFloat.zero) in
    let negative := PrimFloat.get_sign base && is_odd_integer exponent in
    match large, negative with
    | true, false => PrimFloat.infinity
    | true, true => PrimFloat.neg_infinity
    | false, false => PrimFloat.zero
    | false, true => PrimFloat.neg_zero
    end
  else if PrimFloat.is_infinity exponent then
    let a := PrimFloat.abs base in
    if PrimFloat.eqb a PrimFloat.one then PrimFloat.nan
    else if xorb (PrimFloat.ltb PrimFloat.one a)
                 (PrimFloat.ltb exponent PrimFloat.zero)
         then PrimFloat.infinity else PrimFloat.zero
  else
    match to_integer exponent with
    | Some n =>
        if PrimFloat.eqb base half
        then FloatOps.Z.ldexp PrimFloat.one (- n)
        else approx base exponent
    | None =>
        if PrimFloat.ltb base PrimFloat.zero then PrimFloat.nan
        else approx base exponent
    end.


(** The double [2^1023]: twice it is no longer finite. *)
Definition huge : float := FloatOps.Z.ldexp PrimFloat.one 1023.

End F64.

#[export] Instance float_number : JsNumber float := {|
  lit    := F64.of_Q;
  add    := PrimFloat.add;
  sub    := PrimFloat.sub;
  mul    := PrimFloat.mul;
  div    := PrimFloat.div;
  jsmin  := F64.fmin;
  jsmax  := F64.fmax;
  jsabs  := PrimFloat.abs;
  round  := F64.fround;
  gtb x y := PrimFloat.ltb y x;
  truthy := F64.ftruthy
|}.

(** [Math.sqrt] is the correctly rounded square root; [Math.pow] is
    [F64.fpow], given the engine's approximation of the inexact cases. *)
Definition float_math (approx : float -> float -> float) : JsMath float := {|
  jssqrt := PrimFloat.sqrt;
  jspow  := F64.fpow approx
|}.

Arguments lit {num _} q%_Q.

Declare Scope js_scope.
Delimit Scope js_scope with js.
Infix "+" := add : js_scope.
Infix "-" := sub : js_scope.
Infix "*" := mul : js_scope.
Infix "/" := div : js_scope.
Infix ">?" := gtb (at level 70) : js_scope.

(* ================================================================== *)
(** * 2. Data types ([types.ts]) *)
(* ================================================================== *)

(** An optional property [p?: T] is an [option T]; an object used as a
    dictionary ([Record<string, T>]) is the list of its entries in
    insertion order, which is the order [Object.entries] enumerates. *)

Definition Dict (A : Type) : Type := list (string * A).

Fixpoint get_prop {A} (k : string) (o : Dict A) : option A :=
  match o with
  | [] => None
  | (k', v) :: o' => if String.eqb k' k then Some v else get_prop k o'
  end.

(** [o[k] = v]: an existing key keeps its place, a new one goes last. *)
Fixpoint set_prop {A} (k : string) (v : A) (o : Dict A) : Dict A :=
  match o with
  | [] => [(k, v)]
  | (k', v') :: o' =>
      if String.eqb k' k then (k', v) :: o' else (k', v') :: set_prop k v o'
  end.

Inductive CustomValue (num : Type) : Type :=
| CNumber (n : num)
| CString (s : string)
| CBoolean (b : bool).

Record PerformanceMetrics (num : Type) : Type := {
  uptime_percentage : option num;
  avg_response_time_ms : option num;
  error_rate : option num;
  successful_transactions : option num
}.

Record VerificationDetails : Type := {
  level : option string;
  verified_at : option string;
  methods : option (list string)
}.

Record FeedbackMetrics (num : Type) : Type := {
  average_rating : option num;
  rating_count : option num;
  rating_distribution : option (list num);
  review_count : option num
}.

Record UsageMetrics (num : Type) : Type := {
  total_requests : option num;
  unique_clients : option num;
  longevity_days : option num;
  consistency_score : option num
}.

Record IReputationDataComponents (num : Type) : Type := {
  performanceMetrics : option (PerformanceMetrics num);
  verificationDetails : option VerificationDetails;
  feedbackMetrics : option (FeedbackMetrics num);
  usageMetrics : option (UsageMetrics num);
  customMetrics : option (Dict (CustomValue num))
}.

Module Confidence.

Record t (num : Type) : Type := {
  level : option num;
  factors : option (Dict num)
}.
Arguments level {num} _.
Arguments factors {num} _.

End Confidence.

Record IReputationScore (num : Type) : Type := {
  serverId : string;
  overallScore : option num;
  categories : option (Dict num);
  confidence : option (Confidence.t num);
  lastUpdated : string;
  dataPoints : option num;
  algorithm : option string;
  customFields : option (Dict (CustomValue num))
}.

Arguments uptime_percentage {num} _.
Arguments avg_response_time_ms {num} _.
Arguments error_rate {num} _.
Arguments successful_transactions {num} _.
Arguments average_rating {num} _.
Arguments rating_count {num} _.
Arguments rating_distribution {num} _.
Arguments review_count {num} _.
Arguments total_requests {num} _.
Arguments unique_clients {num} _.
Arguments longevity_days {num} _.
Arguments consistency_score {num} _.
Arguments performanceMetrics {num} _.
Arguments verificationDetails {num} _.
Arguments feedbackMetrics {num} _.
Arguments usageMetrics {num} _.
Arguments customMetrics {num} _.
Arguments serverId {num} _.
Arguments overallScore {num} _.
Arguments categories {num} _.
Arguments confidence {num} _.
Arguments lastUpdated {num} _.
Arguments dataPoints {num} _.
Arguments algorithm {num} _.
Arguments customFields {num} _.

(* ================================================================== *)
(** * 3. The algorithm helpers ([algorithm.ts]) *)
(* ================================================================== *)

(** Configuration argument of [calculateConfidence]. *)
Record ConfidenceConfig (num : Type) : Type := {
  minReviews : num;
  idealReviews : num;
  minAge : num;
  idealAge : num;
  verificationImportance : num
}.
Arguments minReviews {num} _.
Arguments idealReviews {num} _.
Arguments minAge {num} _.
Arguments idealAge {num} _.
Arguments verificationImportance {num} _.

(** Result of [calculateConfidence]. *)
Module ConfidenceResult.

Record t (num : Type) : Type := {
  level : num;
  factors : Dict num
}.
Arguments level {num} _.
Arguments factors {num} _.

End ConfidenceResult.

(** Argument of [createWeightedAlgorithm]. *)
Record Weights (num : Type) : Type := {
  performance : num;
  verification : num;
  feedback : num;
  usage : num
}.
Arguments performance {num} _.
Arguments verification {num} _.
Arguments feedback {num} _.
Arguments usage {num} _.

Record WeightedConfig (num : Type) : Type := {
  weights : Weights num;
  timeDecayDays : num;
  minimumReviews : num
}.
Arguments weights {num} _.
Arguments timeDecayDays {num} _.
Arguments minimumReviews {num} _.

(** The optional [config] member of [IReputationAlgorithm]. *)
Record TimeDecay (num : Type) : Type := {
  halfLifeDays : num;
  maxAgeDays : num
}.

Record Thresholds (num : Type) : Type := {
  minimumDataPoints : num;
  outlierDetection : num
}.

Record AlgorithmConfig (num : Type) : Type := {
  cfg_weights : option (Weights num);
  cfg_timeDecay : option (TimeDecay num);
  cfg_thresholds : option (Thresholds num);
  cfg_customParams : option (Dict (CustomValue num))
}.

(** [calculateScore] reads the clock once, for [lastUpdated]; the reading
    ([new Date().toISOString()]) is its first argument here. *)
Record IReputationAlgorithm (num : Type) : Type := {
  id : string;
  name : string;
  description : string;
  version : string;
  calculateScore :
    string -> string -> IReputationDataComponents num -> IReputationScore num;
  config : option (AlgorithmConfig num)
}.
Arguments id {num} _.
Arguments calculateScore {num} _ _ _ _.
Arguments config {num} _.

Section Algorithm.

Context {num : Type} {JN : JsNumber num}.

Local Open Scope js_scope.
Local Open Scope string_scope.

(** [x ? f(x) : d] on an optional number: [undefined], [0] and [NaN] take
    the else branch. *)
Definition if_truthy (x : option num) (f : num -> num) (d : num) : num :=
  match x with
  | Some v => if truthy v then f v else d
  | None => d
  end.

(** [x || d]. *)
Definition or_else (x : option num) (d : num) : num :=
  if_truthy x (fun v => v) d.

(** [xs.reduce((sum, val) => sum + val, 0)]. *)
Definition sum (xs : list num) : num :=
  fold_left (fun s val => s + val) xs (lit 0).

(** [xs.length] as a number. *)
Definition len {A} (xs : list A) : num :=
  lit (inject_Z (Z.of_nat (length xs))).

Definition normalizeScore (value min max : num) : num :=
  (* Clamp the value to the range *)
  let clampedValue := jsmax min (jsmin max value) in
  (* Normalize to 0-100 *)
  ((clampedValue - min) / (max - min)) * lit 100.

Section WithMath.

Context {JM : JsMath num}.

(** [now] is [new Date().getTime()] and [timestamp] is
    [new Date(timestamp).getTime()], both in milliseconds. *)
Definition applyTimeDecay
    (now : num) (value timestamp halfLifeDays : num) : num :=
  let ageMs := now - timestamp in
  let ageDays := ageMs / (lit 1000 * lit 60 * lit 60 * lit 24) in
  value * jspow (lit 0.5) (ageDays / halfLifeDays).

(** The default of [zScoreThreshold] is 2.5. *)
Definition detectOutliers
    (values : list num) (zScoreThreshold : option num) : list nat :=
  let zScoreThreshold := default (lit 2.5) zScoreThreshold in
  if (length values <? 2)%nat then [] else
  (* Calculate mean *)
  let mean := sum values / len values in
  (* Calculate standard deviation *)
  let squaredDiffs := map (fun val => jspow (val - mean) (lit 2)) values in
  let variance := sum squaredDiffs / len values in
  let stdDev := jssqrt variance in
  (* Find outliers *)
  fold_left
    (fun (outliers : list nat) '(index, val) =>
       let zScore := jsabs ((val - mean) / stdDev) in
       if zScore >? zScoreThreshold then (outliers ++ [index])%list
       else outliers)
    (combine (seq 0 (length values)) values)
    [].

End WithMath.

Definition calculateConfidence
    (dataComponents : IReputationDataComponents num)
    (config : ConfidenceConfig num) : ConfidenceResult.t num :=
  let factors : Dict num :=
    [("sample_size", lit 0); ("consistency", lit 0); ("diversity", lit 0);
     ("recency", lit 0); ("verification_level", lit 0)] in
  (* Sample size factor *)
  let reviewCount :=
    or_else (feedbackMetrics dataComponents ≫= rating_count) (lit 0) in
  let factors :=
    set_prop "sample_size"
      (jsmin (lit 100) ((reviewCount / idealReviews config) * lit 100))
      factors in
  (* Consistency, diversity and recency factors (placeholders) *)
  let factors := set_prop "consistency" (lit 70) factors in
  let factors := set_prop "diversity" (lit 60) factors in
  let factors := set_prop "recency" (lit 80) factors in
  (* Verification level factor *)
  let verificationLevel :=
    match verificationDetails dataComponents ≫= level with
    | Some l => if String.eqb l "" then "none" else l
    | None => "none"
    end in
  let factors :=
    set_prop "verification_level"
      (if String.eqb verificationLevel "gold" then lit 100
       else if String.eqb verificationLevel "silver" then lit 75
       else if String.eqb verificationLevel "bronze" then lit 50
       else lit 0)
      factors in
  (* Calculate overall confidence level (weighted average) *)
  let weights : Dict num :=
    [("sample_size", lit 0.3); ("consistency", lit 0.2);
     ("diversity", lit 0.1); ("recency", lit 0.2);
     ("verification_level", lit 0.2)] in
  let '(overallConfidence, weightSum) :=
    fold_left
      (fun '(overallConfidence, weightSum) '(factor, value) =>
         let weight := or_else (get_prop factor weights) (lit 0) in
         (overallConfidence + value * weight, weightSum + weight))
      factors
      (lit 0, lit 0) in
  let level :=
    if weightSum >? lit 0 then overallConfidence / weightSum else lit 0 in
  {| ConfidenceResult.level := round level;
     ConfidenceResult.factors := factors |}.

(* Helper functions for score calculation *)

Definition calculatePerformanceScore
    (components : IReputationDataComponents num) : num :=
  match performanceMetrics components with
  | None => lit 50 (* Default score *)
  | Some metrics =>
      (* Uptime score (0-100) *)
      let uptimeScore := or_else (uptime_percentage metrics) (lit 0) in
      (* Response time score (0-100); lower is better, so we invert *)
      let responseTimeScore :=
        if_truthy (avg_response_time_ms metrics)
          (fun t => jsmax (lit 0) (lit 100 - (t / lit 10)))
          (lit 50) in
      (* Error rate score (0-100); lower is better, so we invert *)
      let errorRateScore :=
        match error_rate metrics with
        | Some e => jsmax (lit 0) (lit 100 - (e * lit 100))
        | None => lit 50
        end in
      (* Combine scores with weights *)
      (uptimeScore * lit 0.5) + (responseTimeScore * lit 0.3)
      + (errorRateScore * lit 0.2)
  end.

Definition calculateVerificationScore
    (components : IReputationDataComponents num) : num :=
  match verificationDetails components with
  | None => lit 0
  | Some details =>
      (* Score based on verification level *)
      match level details with
      | Some l =>
          if String.eqb l "gold" then lit 100
          else if String.eqb l "silver" then lit 75
          else if String.eqb l "bronze" then lit 50
          else lit 0
      | None => lit 0
      end
  end.

Definition calculateFeedbackScore
    (components : IReputationDataComponents num) : num :=
  match feedbackMetrics components with
  | None => lit 50
  | Some metrics =>
      (* Assuming rating is on a 1-5 scale; convert to 0-100 *)
      if_truthy (average_rating metrics)
        (fun r => (r - lit 1) / lit 4 * lit 100)
        (lit 50)
  end.

Definition calculateUsageScore
    (components : IReputationDataComponents num) : num :=
  match usageMetrics components with
  | None => lit 50
  | Some metrics =>
      (* Request volume score *)
      let requestScore :=
        if_truthy (total_requests metrics)
          (fun n => jsmin (lit 100) (n / lit 1000 * lit 100)) (lit 0) in
      (* Client diversity score *)
      let diversityScore :=
        if_truthy (unique_clients metrics)
          (fun n => jsmin (lit 100) (n / lit 100 * lit 100)) (lit 0) in
      (* Longevity score *)
      let longevityScore :=
        if_truthy (longevity_days metrics)
          (fun n => jsmin (lit 100) (n / lit 30 * lit 100)) (lit 0) in
      (* Combine scores with weights *)
      (requestScore * lit 0.3) + (diversityScore * lit 0.4)
      + (longevityScore * lit 0.3)
  end.

Definition createWeightedAlgorithm
    (config : WeightedConfig num) : IReputationAlgorithm num :=
  {| id := "weighted-score-v1";
     name := "Weighted Score Algorithm";
     description :=
       "Calculates reputation based on weighted components with time decay";
     version := "1.0";
     calculateScore := fun now serverId components =>
       (* Calculate category scores *)
       let performanceScore := calculatePerformanceScore components in
       let verificationScore := calculateVerificationScore components in
       let feedbackScore := calculateFeedbackScore components in
       let usageScore := calculateUsageScore components in
       (* Apply weights *)
       let weightedScore :=
         (performanceScore * performance (weights config))
         + (verificationScore * verification (weights config))
         + (feedbackScore * feedback (weights config))
         + (usageScore * usage (weights config)) in
       (* Normalize to ensure 0-100 range *)
       let normalizedScore := jsmin (lit 100) (jsmax (lit 0) weightedScore) in
       (* Calculate confidence *)
       let confidence :=
         calculateConfidence components
           {| minReviews := minimumReviews config;
              idealReviews := minimumReviews config * lit 5;
              minAge := lit 7;
              idealAge := lit 30;
              verificationImportance := lit 0.2 |} in
       {| serverId := serverId;
          overallScore := Some (round normalizedScore);
          categories := Some
            [("performance", round performanceScore);
             ("verification", round verificationScore);
             ("feedback", round feedbackScore);
             ("usage", round usageScore)];
          confidence := Some
            {| Confidence.level := Some (ConfidenceResult.level confidence);
               Confidence.factors :=
                 Some (ConfidenceResult.factors confidence) |};
          lastUpdated := now;
          dataPoints :=
            Some (or_else (feedbackMetrics components ≫= rating_count)
                    (lit 0));
          algorithm := Some "weighted-score-v1";
          customFields := None |};
     config := Some
       {| cfg_weights := Some (weights config);
          cfg_timeDecay := Some
            {| halfLifeDays := timeDecayDays config;
               maxAgeDays := timeDecayDays config * lit 4 |};
          cfg_thresholds := Some
            {| minimumDataPoints := minimumReviews config;
               outlierDetection := lit 2.5 |};
          cfg_customParams := None |} |}.

End Algorithm.

(* ================================================================== *)
(** * 4. In-memory storage ([storage.ts]) *)
(* ================================================================== *)

(** [xs.slice(start)] for an integer [start]: a negative [start] counts
    from the end of the array, and both ends are clipped to the array. *)
Definition array_slice {A} (start : Z) (xs : list A) : list A :=
  let len := Z.of_nat (length xs) in
  let k := if (start <? 0)%Z then Z.max (len + start) 0
           else Z.min start len in
  drop (Z.to_nat k) xs.

(** The two private [Map]s of [LocalReputationStorage].  The methods are
    [async] without awaiting anything, so each call is one state
    transition. *)
Record LocalReputationStorage (num : Type) : Type := {
  storage : gmap string (IReputationScore num);
  history : gmap string (list (IReputationScore num))
}.
Arguments storage {num} _.
Arguments history {num} _.

Section Storage.

Context {num : Type}.

Definition newLocalReputationStorage : LocalReputationStorage num :=
  {| storage := ∅; history := ∅ |}.

Definition saveReputationScore
    (this : LocalReputationStorage num) (score : IReputationScore num)
    : LocalReputationStorage num :=
  (* Save current score *)
  let storage' := <[serverId score := score]> (storage this) in
  (* Update history *)
  let serverHistory := default [] (history this !! serverId score) in
  let serverHistory := serverHistory ++ [score] in
  {| storage := storage';
     history := <[serverId score := serverHistory]> (history this) |}.

Definition getReputationScore
    (this : LocalReputationStorage num) (serverId : string)
    : option (IReputationScore num) :=
  storage this !! serverId.

(** The default of [limit] is 10; [limit] is the integer the argument
    denotes. *)
Definition getReputationHistory
    (this : LocalReputationStorage num) (serverId : string)
    (limit : option Z) : list (IReputationScore num) :=
  let limit := default 10%Z limit in
  let history := default [] (history this !! serverId) in
  array_slice (- limit) history.

(** Saving a sequence of scores, first to last. *)
Definition saveAll
    (this : LocalReputationStorage num) (scores : list (IReputationScore num))
    : LocalReputationStorage num :=
  fold_left saveReputationScore scores this.

End Storage.

(** The scores of the storage test-suite: one server, an overall score, a
    timestamp and an algorithm name. *)
Definition testScore (overall : Z) : IReputationScore float :=
  {| serverId := "test-server";
     overallScore := Some (F64.of_Z overall);
     categories := None;
     confidence := None;
     lastUpdated := "2025-01-01T00:00:00.000Z";
     dataPoints := None;
     algorithm := Some "test-algorithm";
     customFields := None |}.

(* ================================================================== *)
(** * 4a. The reputation client ([future/client]) *)
(* ================================================================== *)

Arguments name {num} _.
Arguments description {num} _.
Arguments version {num} _.

(** How a call ends: with a value, or with [throw new Error(message)]. *)
Inductive outcome (A : Type) : Type :=
| Returned (a : A)
| Thrown (message : string).
Arguments Returned {A} a.
Arguments Thrown {A} message.

(** The interface [IReputationStorage].  A rejected [saveReputationScore]
    may still have written, so it returns the state together with the
    error, if any. *)
Class IReputationStorage (S num : Type) : Type := {
  storage_save : S -> IReputationScore num -> S * option string;
  storage_get : S -> string -> option (IReputationScore num);
  storage_history : S -> string -> option Z -> list (IReputationScore num)
}.

#[export] Instance local_storage {num : Type}
    : IReputationStorage (LocalReputationStorage num) num := {|
  storage_save this score := (saveReputationScore this score, None);
  storage_get := getReputationScore;
  storage_history := getReputationHistory
|}.

Section DataClient.

Context {num : Type} {JN : JsNumber num}.

Local Open Scope string_scope.

(** [ReputationDataClient.getReputationData]: the prototype returns the
    same bundle for every server; [now] is the clock reading that stamps
    [verified_at].  The line it logs to the console is left out. *)
Definition getReputationData (now : string) (serverId : string)
    : IReputationDataComponents num :=
  {| performanceMetrics := Some
       {| uptime_percentage := Some (lit 99.9);
          avg_response_time_ms := Some (lit 150);
          error_rate := Some (lit 0.01);
          successful_transactions := Some (lit 10000) |};
     verificationDetails := Some
       {| level := Some "gold";
          verified_at := Some now;
          methods := Some ["dns"; "oauth"] |};
     feedbackMetrics := Some
       {| average_rating := Some (lit 4.8);
          rating_count := Some (lit 120);
          rating_distribution :=
            Some [lit 2; lit 3; lit 5; lit 25; lit 85];
          review_count := Some (lit 45) |};
     usageMetrics := Some
       {| total_requests := Some (lit 50000);
          unique_clients := Some (lit 500);
          longevity_days := Some (lit 120);
          consistency_score := Some (lit 95) |};
     customMetrics := None |}.

End DataClient.

(** [ReputationClient]: the registry of algorithms, a [Map] read in
    insertion order, and the storage collaborator.  The sub-clients for
    reviews and verification only forward to the network and are left
    out. *)
Module ReputationClient.

Record t (S num : Type) : Type := {
  algorithms : Dict (IReputationAlgorithm num);
  storage : S
}.
Arguments algorithms {S num} _.
Arguments storage {S num} _.

Section Methods.

Context {S num : Type} {JN : JsNumber num} {ST : IReputationStorage S num}.

Local Open Scope string_scope.

(** The constructor, given the storage to use. *)
Definition new (storage : S) : t S num :=
  {| algorithms := []; storage := storage |}.

Definition registerAlgorithm
    (this : t S num) (algorithm : IReputationAlgorithm num) : t S num :=
  {| algorithms := set_prop (id algorithm) algorithm (algorithms this);
     storage := storage this |}.

Definition getAlgorithm (this : t S num) (algorithmId : string)
    : option (IReputationAlgorithm num) :=
  get_prop algorithmId (algorithms this).

Definition listAlgorithms (this : t S num)
    : list (string * string * string) :=
  map (fun algorithm =>
         (id algorithm, name algorithm, description algorithm))
      (map snd (algorithms this)).

(** [t_data] and [t_score] are the two clock readings of the call, the
    first in the data client and the second in the algorithm. *)
Definition calculateReputationScore
    (this : t S num) (t_data t_score : string)
    (serverId algorithmId : string)
    : t S num * outcome (IReputationScore num) :=
  (* Get the algorithm *)
  match get_prop algorithmId (algorithms this) with
  | None =>
      (this, Thrown ("Algorithm with ID " ++ algorithmId ++ " not found"))
  | Some algorithm =>
      (* Get the data components *)
      let components := getReputationData t_data serverId in
      (* Calculate the score *)
      let score := calculateScore algorithm t_score serverId components in
      (* Save the score *)
      match storage_save (storage this) score with
      | (storage', None) =>
          ({| algorithms := algorithms this; storage := storage' |},
           Returned score)
      | (storage', Some error) =>
          ({| algorithms := algorithms this; storage := storage' |},
           Thrown error)
      end
  end.

Definition getReputationScore (this : t S num) (serverId : string)
    : option (IReputationScore num) :=
  storage_get (storage this) serverId.

(** The default of [limit] is 10. *)
Definition getReputationHistory
    (this : t S num) (serverId : string) (limit : option Z)
    : list (IReputationScore num) :=
  let limit := default 10%Z limit in
  storage_history (storage this) serverId (Some limit).

End Methods.

End ReputationClient.

(* ================================================================== *)
(** * 5. Vocabulary of the statements *)
(* ================================================================== *)

Section Inputs.

Context {num : Type} {JN : JsNumber num}.

Local Open Scope string_scope.

(** Reading a score record. *)
Definition category (k : string) (s : IReputationScore num) : option num :=
  categories s ≫= get_prop k.

Definition confidenceLevel (s : IReputationScore num) : option num :=
  confidence s ≫= Confidence.level.

(** A bundle with all four metric categories absent. *)
Definition noData (custom : option (Dict (CustomValue num)))
    : IReputationDataComponents num :=
  {| performanceMetrics := None;
     verificationDetails := None;
     feedbackMetrics := None;
     usageMetrics := None;
     customMetrics := custom |}.

Definition mkWeights (p v f u : num) : Weights num :=
  {| performance := p; verification := v; feedback := f; usage := u |}.

Definition mkConfig (w : Weights num) (decay reviews : num)
    : WeightedConfig num :=
  {| weights := w; timeDecayDays := decay; minimumReviews := reviews |}.

(** The configuration of the test-suite and of the end-to-end scenario. *)
Definition scenarioConfig : WeightedConfig num :=
  mkConfig (mkWeights (lit 0.4) (lit 0.3) (lit 0.2) (lit 0.1))
           (lit 30) (lit 5).

(** The bundle of the end-to-end scenario. *)
Definition scenarioComponents : IReputationDataComponents num :=
  {| performanceMetrics := Some
       {| uptime_percentage := Some (lit 99.9);
          avg_response_time_ms := Some (lit 150);
          error_rate := Some (lit 0.01);
          successful_transactions := None |};
     verificationDetails := Some
       {| level := Some "gold"; verified_at := None; methods := None |};
     feedbackMetrics := Some
       {| average_rating := Some (lit 4.8);
          rating_count := Some (lit 50);
          rating_distribution := None;
          review_count := None |};
     usageMetrics := Some
       {| total_requests := Some (lit 10000);
          unique_clients := Some (lit 500);
          longevity_days := Some (lit 90);
          consistency_score := None |};
     customMetrics := None |}.

(** The configuration the test-suite passes to [calculateConfidence]. *)
Definition testConfidenceConfig : ConfidenceConfig num :=
  {| minReviews := lit 5;
     idealReviews := lit 25;
     minAge := lit 7;
     idealAge := lit 30;
     verificationImportance := lit 0.2 |}.

(** The bundle of the confidence test: twenty ratings, silver level. *)
Definition silverComponents : IReputationDataComponents num :=
  {| performanceMetrics := None;
     verificationDetails := Some
       {| level := Some "silver"; verified_at := None; methods := None |};
     feedbackMetrics := Some
       {| average_rating := None;
          rating_count := Some (lit 20);
          rating_distribution := None;
          review_count := None |};
     usageMetrics := None;
     customMetrics := None |}.

(** The bundle [c] with its performance category replaced by the three
    fields the scorer reads. *)
Definition withPerformance
    (u t e : option num) (c : IReputationDataComponents num)
    : IReputationDataComponents num :=
  {| performanceMetrics := Some
       {| uptime_percentage := u;
          avg_response_time_ms := t;
          error_rate := e;
          successful_transactions :=
            performanceMetrics c ≫= successful_transactions |};
     verificationDetails := verificationDetails c;
     feedbackMetrics := feedbackMetrics c;
     usageMetrics := usageMetrics c;
     customMetrics := customMetrics c |}.

(** The score the weighted algorithm computes at clock reading [now]. *)
Definition weightedScore
    (cfg : WeightedConfig num) (now serverId : string)
    (c : IReputationDataComponents num) : IReputationScore num :=
  calculateScore (createWeightedAlgorithm cfg) now serverId c.

(** The end-to-end scenario: verification 100, feedback 95, and an
    overall score above 80. *)
Definition scenario_outcome (s : IReputationScore num) : Prop :=
  category "verification" s = Some (lit 100) /\
  category "feedback" s = Some (lit 95) /\
  exists o, overallScore s = Some o /\ (o >? lit 80)%js = true.

End Inputs.

Module Spec.

Local Open Scope R_scope.

(** A property of an optional field, vacuous when the field is absent. *)
Definition when_present {A} (P : A -> Prop) (o : option A) : Prop :=
  match o with Some x => P x | None => True end.

Definition finite (x : xreal) : Prop :=
  match x with Fin _ => True | _ => False end.

(** [lo <= x <= hi] for a finite [x]. *)
Definition between (lo hi : R) (x : xreal) : Prop :=
  match x with Fin r => lo <= r <= hi | _ => False end.

Definition at_least (lo : R) (x : xreal) : Prop :=
  match x with Fin r => lo <= r | _ => False end.

(** Every number the category scores read is finite. *)
Definition finite_components (c : IReputationDataComponents xreal) : Prop :=
  when_present (fun m =>
      when_present finite (uptime_percentage m) /\
      when_present finite (avg_response_time_ms m) /\
      when_present finite (error_rate m)) (performanceMetrics c) /\
  when_present (fun m =>
      when_present finite (average_rating m)) (feedbackMetrics c) /\
  when_present (fun m =>
      when_present finite (total_requests m) /\
      when_present finite (unique_clients m) /\
      when_present finite (longevity_days m)) (usageMetrics c).

(** The ranges the data model documents for the fields the category
    scores read: a percentage, a non-negative latency, a non-negative
    error rate, a rating on the 1-5 scale, non-negative counts. *)
Definition documented_ranges (c : IReputationDataComponents xreal) : Prop :=
  when_present (fun m =>
      when_present (between 0 100) (uptime_percentage m) /\
      when_present (at_least 0) (avg_response_time_ms m) /\
      when_present (at_least 0) (error_rate m)) (performanceMetrics c) /\
  when_present (fun m =>
      when_present (between 1 5) (average_rating m)) (feedbackMetrics c) /\
  when_present (fun m =>
      when_present (at_least 0) (total_requests m) /\
      when_present (at_least 0) (unique_clients m) /\
      when_present (at_least 0) (longevity_days m)) (usageMetrics c).

(** [rating_count], when given, is a count: finite and not negative. *)
Definition rating_count_is_count (c : IReputationDataComponents xreal)
    : Prop :=
  when_present (fun m => when_present (at_least 0) (rating_count m))
    (feedbackMetrics c).

(** [rating_count], when given, is a finite number. *)
Definition rating_count_finite (c : IReputationDataComponents xreal)
    : Prop :=
  when_present (fun m => when_present finite (rating_count m))
    (feedbackMetrics c).

(** The feedback sample count of a bundle, 0 when there is none. *)
Definition reviews (c : IReputationDataComponents xreal) : R :=
  match feedbackMetrics c ≫= rating_count with
  | Some (Fin r) => r
  | _ => 0
  end.

(** The verification level a bundle states, if any. *)
Definition stated_level (c : IReputationDataComponents xreal)
    : option string :=
  verificationDetails c ≫= level.

(** The verification step function: gold, silver, bronze, anything else. *)
Definition level_points (l : option string) : R :=
  match l with
  | Some l =>
      if String.eqb l "gold" then 100
      else if String.eqb l "silver" then 75
      else if String.eqb l "bronze" then 50
      else 0
  | None => 0
  end.

(** The sample-size factor for [ideal] reviews. *)
Definition sample_size (c : IReputationDataComponents xreal) (ideal : R)
    : R :=
  Rmin 100 (reviews c / ideal * 100).

(** The weighted blend of the five confidence factors. *)
Definition blend (sample consistency diversity recency verified : R)
    : R :=
  0.3 * sample + 0.2 * consistency + 0.1 * diversity + 0.2 * recency
  + 0.2 * verified.

(** A confidence that deserves to be called near zero: at most a tenth of
    the 0-100 scale. *)
Definition near_zero (x : xreal) : Prop := between 0 10 x.

(** Population mean and population standard deviation (divisor [N]). *)
Definition total (vs : list R) : R := fold_right Rplus 0 vs.

Definition mean (vs : list R) : R := total vs / INR (length vs).

Definition stdDev (vs : list R) : R :=
  sqrt (total (map (fun v => (v - mean vs) * (v - mean vs)) vs)
        / INR (length vs)).

(** The z-score test of the specification, as a decision. *)
Definition is_outlier (vs : list R) (z : R) (i : nat) : bool :=
  if Rlt_dec z (Rabs (nth i vs 0 - mean vs) / stdDev vs) then true else false.

End Spec.

(* ================================================================== *)
(** * 5a. Further vocabulary *)
(* ================================================================== *)

Section MoreInputs.

Context {num : Type}.

(** The bundle [c] with its feedback category replaced by an average
    rating alone. *)
Definition withRating
    (rating : option num) (c : IReputationDataComponents num)
    : IReputationDataComponents num :=
  {| performanceMetrics := performanceMetrics c;
     verificationDetails := verificationDetails c;
     feedbackMetrics := Some
       {| average_rating := rating;
          rating_count := feedbackMetrics c ≫= rating_count;
          rating_distribution := feedbackMetrics c ≫= rating_distribution;
          review_count := feedbackMetrics c ≫= review_count |};
     usageMetrics := usageMetrics c;
     customMetrics := customMetrics c |}.

(** The bundle [c] with its usage category replaced by the three fields
    the scorer reads. *)
Definition withUsage
    (requests clients days : option num) (c : IReputationDataComponents num)
    : IReputationDataComponents num :=
  {| performanceMetrics := performanceMetrics c;
     verificationDetails := verificationDetails c;
     feedbackMetrics := feedbackMetrics c;
     usageMetrics := Some
       {| total_requests := requests;
          unique_clients := clients;
          longevity_days := days;
          consistency_score := usageMetrics c ≫= consistency_score |};
     customMetrics := customMetrics c |}.

(** The bundle [c] without the fields the weighted algorithm never
    reads: the transaction count, the verification date and methods, the
    rating distribution, the review count, the consistency score and the
    custom metrics. *)
Definition readFields (c : IReputationDataComponents num)
    : IReputationDataComponents num :=
  {| performanceMetrics :=
       match performanceMetrics c with
       | Some m => Some
           {| uptime_percentage := uptime_percentage m;
              avg_response_time_ms := avg_response_time_ms m;
              error_rate := error_rate m;
              successful_transactions := None |}
       | None => None
       end;
     verificationDetails :=
       match verificationDetails c with
       | Some d => Some
           {| level := level d; verified_at := None; methods := None |}
       | None => None
       end;
     feedbackMetrics :=
       match feedbackMetrics c with
       | Some m => Some
           {| average_rating := average_rating m;
              rating_count := rating_count m;
              rating_distribution := None;
              review_count := None |}
       | None => None
       end;
     usageMetrics :=
       match usageMetrics c with
       | Some m => Some
           {| total_requests := total_requests m;
              unique_clients := unique_clients m;
              longevity_days := longevity_days m;
              consistency_score := None |}
       | None => None
       end;
     customMetrics := None |}.

(** The score [s] stamped with another calculation time. *)
Definition stampedAt (now : string) (s : IReputationScore num)
    : IReputationScore num :=
  {| serverId := serverId s;
     overallScore := overallScore s;
     categories := categories s;
     confidence := confidence s;
     lastUpdated := now;
     dataPoints := dataPoints s;
     algorithm := algorithm s;
     customFields := customFields s |}.

(** The scores saved for one server, in the order of the saves. *)
Definition savedFor (sid : string) (scores : list (IReputationScore num))
    : list (IReputationScore num) :=
  List.filter (fun s => String.eqb (serverId s) sid) scores.

End MoreInputs.

Section ClientInputs.

Context {S num : Type}.

(** A new client on the storage [st] after registering [algs], first to
    last. *)
Definition registered (st : S) (algs : list (IReputationAlgorithm num))
    : ReputationClient.t S num :=
  fold_left ReputationClient.registerAlgorithm algs (ReputationClient.new st).

(** The identifiers [listAlgorithms] reports, in its order. *)
Definition listedIds (this : ReputationClient.t S num) : list string :=
  map (fun entry => entry.1.1) (ReputationClient.listAlgorithms this).

End ClientInputs.

Section MoreBundles.

Context {num : Type} {JN : JsNumber num}.

(** A bundle whose only datum is the number of ratings. *)
Definition withRatingCount (count : num) : IReputationDataComponents num :=
  {| performanceMetrics := None;
     verificationDetails := None;
     feedbackMetrics := Some
       {| average_rating := None;
          rating_count := Some count;
          rating_distribution := None;
          review_count := None |};
     usageMetrics := None;
     customMetrics := None |}.

(** A bundle that states a verification level and a number of ratings,
    and the configuration [createWeightedAlgorithm] passes to
    [calculateConfidence] for a given [idealReviews]. *)
Definition withLevelAndCount (l : option string) (count : num)
    : IReputationDataComponents num :=
  {| performanceMetrics := None;
     verificationDetails := Some
       {| level := l; verified_at := None; methods := None |};
     feedbackMetrics := Some
       {| average_rating := None;
          rating_count := Some count;
          rating_distribution := None;
          review_count := None |};
     usageMetrics := None;
     customMetrics := None |}.

Definition confidenceConfigFor (ideal : num) : ConfidenceConfig num :=
  {| minReviews := lit 5;
     idealReviews := ideal;
     minAge := lit 7;
     idealAge := lit 30;
     verificationImportance := lit 0.2 |}.

End MoreBundles.


Module Ranges.

Import Spec.
Local Open Scope R_scope.





End Ranges.

(* ================================================================== *)
(** * 6. Arithmetic of the extended reals *)
(* ================================================================== *)

(** Deciding the comparisons that evaluation leaves behind, innermost
    first. *)
Ltac no_decision t :=
  lazymatch t with
  | context [Rle_dec _ _] => fail
  | context [Rlt_dec _ _] => fail
  | context [Req_dec_T _ _] => fail
  | context [Rcase_abs _] => fail
  | _ => idtac
  end.

Ltac decide_R :=
  repeat match goal with
  | |- context [Rlt_dec ?a ?b] =>
      no_decision a; no_decision b; destruct (Rlt_dec a b); try lra
  | |- context [Req_dec_T ?a ?b] =>
      no_decision a; no_decision b; destruct (Req_dec_T a b); try lra
  | |- context [Rle_dec ?a ?b] =>
      no_decision a; no_decision b; destruct (Rle_dec a b); try lra
  | |- context [Rcase_abs ?a] =>
      no_decision a; destruct (Rcase_abs a); try lra
  end.

(** Decimal literals as real constants. *)
Ltac literals :=
  unfold Q2R; cbn [Qnum Qden]; rewrite ?Rinv_1, ?Rmult_1_r.

Ltac xeval := repeat (cbn; literals; decide_R).

(** The same, also opening signs, minima, maxima and absolute values. *)
Ltac xcompute :=
  repeat (cbn; literals; unfold XReal.sgn, Rmin, Rmax, Rabs; decide_R).

Ltac unfold_scorer :=
  unfold weightedScore, createWeightedAlgorithm, calculateScore,
    calculatePerformanceScore,
    calculateVerificationScore, calculateFeedbackScore, calculateUsageScore,
    calculateConfidence, or_else, if_truthy, category, confidenceLevel.

Section RoundFacts.

Local Open Scope R_scope.

Lemma Rround_IZR (z : Z) : XReal.Rround (IZR z) = IZR z.
Proof.
  unfold XReal.Rround. f_equal. apply Zfloor_eq. lra.
Qed.

Lemma Rround_eq (z : Z) (a : R) :
  IZR z - / 2 <= a < IZR z + / 2 -> XReal.Rround a = IZR z.
Proof.
  intros Ha. unfold XReal.Rround. f_equal. apply Zfloor_eq. lra.
Qed.

Lemma Rround_le (a b : R) : a <= b -> XReal.Rround a <= XReal.Rround b.
Proof.
  intros Hab. unfold XReal.Rround. apply IZR_le, Zfloor_le. lra.
Qed.

Lemma Rround_between (lo hi : Z) (a : R) :
  IZR lo <= a <= IZR hi -> IZR lo <= XReal.Rround a <= IZR hi.
Proof.
  intros [Hlo Hhi]. split.
  - rewrite <- (Rround_IZR lo). now apply Rround_le.
  - rewrite <- (Rround_IZR hi). now apply Rround_le.
Qed.

End RoundFacts.

(* ================================================================== *)
(** * 7. The category scores on the extended reals *)
(* ================================================================== *)

Section CategoryScores.

Import Spec.
Local Open Scope R_scope.
Local Open Scope string_scope.

Lemma performance_finite (c : IReputationDataComponents xreal) :
  finite_components c -> exists p, calculatePerformanceScore c = Fin p.
Proof.
  destruct c as [pm vd fm um cm]. intros (Hp & _ & _).
  destruct pm as [[u t e st]|]; cbn in Hp.
  - destruct Hp as (Hu & Ht & He).
    destruct u as [[u| | |]|], t as [[t| | |]|], e as [[e| | |]|];
      cbn in Hu, Ht, He; try contradiction;
      unfold calculatePerformanceScore, or_else, if_truthy; xeval;
      eexists; reflexivity.
  - eexists; reflexivity.
Qed.

Lemma performance_range (c : IReputationDataComponents xreal) :
  documented_ranges c ->
  exists p, calculatePerformanceScore c = Fin p /\ 0 <= p <= 100.
Proof.
  destruct c as [pm vd fm um cm]. intros (Hp & _ & _).
  destruct pm as [[u t e st]|]; cbn in Hp.
  - destruct Hp as (Hu & Ht & He).
    destruct u as [[u| | |]|], t as [[t| | |]|], e as [[e| | |]|];
      cbn in Hu, Ht, He; try contradiction;
      unfold calculatePerformanceScore, or_else, if_truthy; xeval;
      (eexists; split; [reflexivity | unfold Rmax; decide_R; lra]).
  - exists (Q2R 50). split; [reflexivity | literals; lra].
Qed.



Lemma feedback_range (c : IReputationDataComponents xreal) :
  documented_ranges c ->
  exists f, calculateFeedbackScore c = Fin f /\ 0 <= f <= 100.
Proof.
  destruct c as [pm vd fm um cm]. intros (_ & Hf & _).
  destruct fm as [[r n d k]|]; cbn in Hf.
  - destruct r as [[r| | |]|]; cbn in Hf; try contradiction;
      unfold calculateFeedbackScore, if_truthy; xeval;
      (eexists; split; [reflexivity | lra]).
  - exists (Q2R 50). split; [reflexivity | literals; lra].
Qed.


Lemma usage_range (c : IReputationDataComponents xreal) :
  documented_ranges c ->
  exists u, calculateUsageScore c = Fin u /\ 0 <= u <= 100.
Proof.
  destruct c as [pm vd fm um cm]. intros (_ & _ & Hu).
  destruct um as [[q k d s]|]; cbn in Hu.
  - destruct Hu as (Hq & Hk & Hd).
    destruct q as [[q| | |]|], k as [[k| | |]|], d as [[d| | |]|];
      cbn in Hq, Hk, Hd; try contradiction;
      unfold calculateUsageScore, if_truthy; xeval;
      (eexists; split; [reflexivity | unfold Rmin; decide_R; lra]).
  - exists (Q2R 50). split; [reflexivity | literals; lra].
Qed.

End CategoryScores.

(* ================================================================== *)
(** * 8. The confidence estimate *)
(* ================================================================== *)

Section ConfidenceBounds.

Import Spec.
Local Open Scope R_scope.
Local Open Scope string_scope.

(** [calculateConfidence] in closed form. *)
Lemma calculateConfidence_xreal
    (c : IReputationDataComponents xreal) (cfg : ConfidenceConfig xreal)
    (i : R) :
  idealReviews cfg = Fin i -> 0 < i -> rating_count_finite c ->
  calculateConfidence c cfg =
  {| ConfidenceResult.level :=
       Fin (XReal.Rround
              (blend (sample_size c i) 70 60 80
                 (level_points (stated_level c))));
     ConfidenceResult.factors :=
       [("sample_size", Fin (sample_size c i));
        ("consistency", Fin 70);
        ("diversity", Fin 60);
        ("recency", Fin 80);
        ("verification_level", Fin (level_points (stated_level c)))] |}.
Proof.
  intros Hi Hpos Hrc.
  destruct c as [pm vd fm um cm], cfg as [mr ir ma ia vi].
  cbn in Hi; subst ir.
  unfold calculateConfidence, sample_size, reviews, stated_level, blend,
    rating_count_finite in *.
  cbn [feedbackMetrics verificationDetails idealReviews] in *.
  match goal with
  | |- context [set_prop "sample_size" ?v _] =>
      assert (Hs : v = Fin (Rmin 100
                (match fm ≫= rating_count with
                 | Some (Fin r) => r | _ => 0 end / i * 100)))
  end.
  { destruct fm as [[r [[n| | |]|] d k]|]; cbn in Hrc; try contradiction;
      unfold or_else, if_truthy; xeval; try reflexivity.
    subst n. reflexivity. }
  match goal with
  | |- context [set_prop "verification_level" ?v _] =>
      assert (Hv : v = Fin (level_points (vd ≫= level)))
  end.
  { unfold level_points.
    destruct (vd ≫= level) as [l|]; [|xeval; reflexivity].
    destruct (String.eqb_spec l "") as [->|_]; [xeval; reflexivity|].
    repeat match goal with
           | |- context [String.eqb ?a ?b] => destruct (String.eqb a b)
           end; cbn; literals; reflexivity. }
  rewrite Hs, Hv. clear Hs Hv.
  unfold or_else, if_truthy. xeval.
  do 3 f_equal. field.
Qed.

Lemma count_is_finite (c : IReputationDataComponents xreal) :
  rating_count_is_count c -> rating_count_finite c.
Proof.
  unfold rating_count_is_count, rating_count_finite.
  destruct (feedbackMetrics c) as [[r [[n| | |]|] d k]|]; cbn; tauto.
Qed.

Lemma reviews_nonneg (c : IReputationDataComponents xreal) :
  rating_count_is_count c -> 0 <= reviews c.
Proof.
  unfold rating_count_is_count, reviews.
  destruct (feedbackMetrics c) as [[r [[n| | |]|] d k]|]; cbn; lra.
Qed.

Lemma sample_size_range (c : IReputationDataComponents xreal) (i : R) :
  0 < i -> rating_count_is_count c -> 0 <= sample_size c i <= 100.
Proof.
  intros Hi Hc. apply reviews_nonneg in Hc. unfold sample_size.
  assert (0 <= reviews c / i * 100).
  { apply Rmult_le_pos; [|lra]. apply Rmult_le_pos; [lra|].
    left. now apply Rinv_0_lt_compat. }
  unfold Rmin. decide_R; lra.
Qed.

Lemma level_points_range (l : option string) : 0 <= level_points l <= 100.
Proof.
  unfold level_points. destruct l as [l|]; [|lra].
  repeat match goal with
         | |- context [String.eqb ?a ?b] => destruct (String.eqb a b)
         end; lra.
Qed.

Lemma no_data_confidence
    (cm : option (Dict (CustomValue xreal))) (cfg : ConfidenceConfig xreal)
    (i : R) :
  idealReviews cfg = Fin i -> 0 < i ->
  ConfidenceResult.level (calculateConfidence (noData cm) cfg) = Fin 36.
Proof.
  intros Hi Hpos.
  rewrite (calculateConfidence_xreal _ _ i Hi Hpos) by exact I.
  cbn. f_equal. apply (Rround_eq 36).
  unfold blend, sample_size, reviews. cbn.
  replace (0 / i * 100) with 0 by (unfold Rdiv; lra).
  unfold Rmin. decide_R; lra.
Qed.

Lemma confidence_level_bounds
    (c : IReputationDataComponents xreal) (cfg : ConfidenceConfig xreal)
    (i : R) :
  idealReviews cfg = Fin i -> 0 < i -> rating_count_is_count c ->
  exists l,
    ConfidenceResult.level (calculateConfidence c cfg) = Fin l /\
    36 <= l <= 100.
Proof.
  intros Hi Hpos Hc.
  rewrite (calculateConfidence_xreal _ _ i Hi Hpos (count_is_finite _ Hc)).
  cbn. eexists; split; [reflexivity|].
  pose proof (sample_size_range c i Hpos Hc).
  pose proof (level_points_range (stated_level c)).
  apply (Rround_between 36 100). unfold blend. lra.
Qed.

End ConfidenceBounds.

(* ================================================================== *)
(** * 8a. binary64: comparisons, quotients by zero and the clamp *)
(* ================================================================== *)

Section Binary64Facts.

Import SpecFloat FloatOps FloatAxioms.

Local Open Scope float_scope.





(** [0 / y] for a positive [y], finite or not. *)
Lemma zero_div_pos (y : float) : (0 <? y) = true -> 0 / y = 0.
Proof.
  intros Hy. apply Prim2SF_inj. rewrite div_spec.
  rewrite ltb_spec in Hy. unfold SFltb in Hy.
  change (Prim2SF 0) with (S754_zero false) in *.
  destruct (Prim2SF y) as [s| s| |s m e]; cbn in Hy; try discriminate;
    destruct s; try discriminate; reflexivity.
Qed.

(** [x / 0] and [x / -0] for a positive [x]. *)
Lemma pos_div_zero (x : float) :
  (0 <? x) = true -> x / 0 = infinity /\ x / neg_zero = neg_infinity.
Proof.
  intros Hx.
  rewrite ltb_spec in Hx. unfold SFltb in Hx.
  change (Prim2SF 0) with (S754_zero false) in *.
  split; apply Prim2SF_inj; rewrite div_spec;
    [change (Prim2SF 0) with (S754_zero false)
    |change (Prim2SF neg_zero) with (S754_zero true)];
    destruct (Prim2SF x) as [s| s| |s m e]; cbn in Hx; try discriminate;
    destruct s; try discriminate; reflexivity.
Qed.


End Binary64Facts.

Section Claims.

Import Spec.
Local Open Scope R_scope.
Local Open Scope string_scope.

(** C6.  For a configuration with [idealReviews > 0], [calculateConfidence]
    returns the five factors with
    [sample_size = min(100, rating_count / idealReviews * 100)] (0 when the
    feedback category is absent), [verification_level] 100 for gold, 75
    for silver, 50 for bronze and 0 otherwise, and a [level] that is the
    blend [0.3*sample_size + 0.2*consistency + 0.1*diversity + 0.2*recency
    + 0.2*verification_level] rounded to the nearest integer. *)
Theorem C6_confidence_factors
    (c : IReputationDataComponents xreal) (cfg : ConfidenceConfig xreal)
    (i : R) :
  idealReviews cfg = Fin i -> 0 < i -> rating_count_finite c ->
  exists sample verified : R,
    ConfidenceResult.factors (calculateConfidence c cfg) =
      [("sample_size", Fin sample); ("consistency", Fin 70);
       ("diversity", Fin 60); ("recency", Fin 80);
       ("verification_level", Fin verified)] /\
    sample = Rmin 100 (reviews c / i * 100) /\
    (feedbackMetrics c = None -> sample = 0) /\
    (stated_level c = Some "gold" -> verified = 100) /\
    (stated_level c = Some "silver" -> verified = 75) /\
    (stated_level c = Some "bronze" -> verified = 50) /\
    (stated_level c <> Some "gold" -> stated_level c <> Some "silver" ->
     stated_level c <> Some "bronze" -> verified = 0) /\
    ConfidenceResult.level (calculateConfidence c cfg) =
      Fin (XReal.Rround
             (0.3 * sample + 0.2 * 70 + 0.1 * 60 + 0.2 * 80
              + 0.2 * verified)).
Proof.
  intros Hi Hpos Hrc.
  rewrite (calculateConfidence_xreal c cfg i Hi Hpos Hrc). cbn.
  exists (sample_size c i), (level_points (stated_level c)).
  split; [reflexivity|]. split; [reflexivity|].
  split.
  { intros Hnone. unfold sample_size, reviews. rewrite Hnone. cbn.
    replace (0 / i * 100) with 0 by (unfold Rdiv; lra).
    unfold Rmin. decide_R; lra. }
  split; [intros ->; reflexivity|].
  split; [intros ->; reflexivity|].
  split; [intros ->; reflexivity|].
  split; [|reflexivity].
  intros Hg Hs Hb. unfold level_points.
  destruct (stated_level c) as [l|]; [|reflexivity].
  destruct (String.eqb_spec l "gold") as [->|_]; [congruence|].
  destruct (String.eqb_spec l "silver") as [->|_]; [congruence|].
  destruct (String.eqb_spec l "bronze") as [->|_]; [congruence|].
  reflexivity.
Qed.

(** The confidence level in binary64, on a grid: every whole number of
    ratings up to 200, every whole [idealReviews] from 1 to 50 and each
    of the four classes of verification level. *)
Lemma confidence_level_grid_binary64
    (count ideal : nat) (l : option string) :
  (count <= 200)%nat -> (1 <= ideal <= 50)%nat ->
  In l [Some "gold"; Some "silver"; Some "bronze"; None] ->
  let x :=
    ConfidenceResult.level
      (calculateConfidence
         (withLevelAndCount l (F64.of_Z (Z.of_nat count)))
         (confidenceConfigFor (F64.of_Z (Z.of_nat ideal)))) in
  PrimFloat.leb (lit 36) x = true /\ PrimFloat.leb x (lit 100) = true.
Proof.
  intros Hcount Hideal Hl.
  assert (Hall :
    forallb (fun i => forallb (fun n => forallb (fun lv =>
      let x :=
        ConfidenceResult.level
          (calculateConfidence
             (withLevelAndCount lv (F64.of_Z (Z.of_nat n)))
             (confidenceConfigFor (F64.of_Z (Z.of_nat i)))) in
      PrimFloat.leb (lit 36) x && PrimFloat.leb x (lit 100))
      [Some "gold"; Some "silver"; Some "bronze"; None])
      (seq 0 201)) (seq 1 50) = true) by (vm_compute; reflexivity).
  rewrite forallb_forall in Hall.
  specialize (Hall ideal ltac:(apply in_seq; lia)).
  rewrite forallb_forall in Hall.
  specialize (Hall count ltac:(apply in_seq; lia)).
  rewrite forallb_forall in Hall.
  specialize (Hall l Hl). cbv zeta in Hall |- *.
  now apply andb_true_iff in Hall.
Qed.

(** C9 (amended).  For a configuration with [idealReviews > 0] and a
    bundle whose [rating_count] is absent or not negative, the confidence
    level lies in [36, 100]: the hard-coded consistency, diversity and
    recency factors contribute 36 points whatever the input, and a bundle
    with no data gets exactly 36.  This is proved in exact arithmetic,
    and in binary64 on the grid of [confidence_level_grid_binary64]. *)
Theorem C9_confidence_level_floor
    (c : IReputationDataComponents xreal) (cfg : ConfidenceConfig xreal)
    (i : R) (cm : option (Dict (CustomValue xreal))) :
  idealReviews cfg = Fin i -> 0 < i -> rating_count_is_count c ->
  0.2 * 70 + 0.1 * 60 + 0.2 * 80 = 36 /\
  (exists l, ConfidenceResult.level (calculateConfidence c cfg) = Fin l /\
             36 <= l <= 100) /\
  ConfidenceResult.level (calculateConfidence (noData cm) cfg) = Fin 36 /\
  ~ near_zero (Fin 36) /\
  (forall (count ideal : nat) (l : option string),
     (count <= 200)%nat -> (1 <= ideal <= 50)%nat ->
     In l [Some "gold"; Some "silver"; Some "bronze"; None] ->
     let x :=
       ConfidenceResult.level
         (calculateConfidence
            (withLevelAndCount l (F64.of_Z (Z.of_nat count)))
            (confidenceConfigFor (F64.of_Z (Z.of_nat ideal)))) in
     PrimFloat.leb (lit 36) x = true /\ PrimFloat.leb x (lit 100) = true).
Proof.
  intros Hi Hpos Hc. split; [lra|]. split.
  - exact (confidence_level_bounds c cfg i Hi Hpos Hc).
  - split; [exact (no_data_confidence cm cfg i Hi Hpos)|].
    split; [unfold near_zero, between; lra|].
    exact confidence_level_grid_binary64.
Qed.

(* ================================================================== *)
(** * 9. The weighted score *)
(* ================================================================== *)

(** C7.  The end-to-end scenario, with weights 0.4, 0.3, 0.2 and 0.1,
    yields [categories.verification = 100], [categories.feedback = 95]
    and an overall score above 80 - in exact arithmetic and in binary64
    alike (the overall score is 97 in both). *)
Theorem C7_end_to_end_scenario :
  scenario_outcome
    (weightedScore (num := xreal) scenarioConfig "2025-01-01T00:00:00.000Z"
       "test-server" scenarioComponents) /\
  scenario_outcome
    (weightedScore (num := float) scenarioConfig "2025-01-01T00:00:00.000Z"
       "test-server" scenarioComponents) /\
  overallScore
    (weightedScore (num := xreal) scenarioConfig "2025-01-01T00:00:00.000Z"
       "test-server" scenarioComponents) = Some (Fin 97) /\
  overallScore
    (weightedScore (num := float) scenarioConfig "2025-01-01T00:00:00.000Z"
       "test-server" scenarioComponents) = Some (F64.of_Z 97).
Proof.
  assert (Hx : overallScore
    (weightedScore (num := xreal) scenarioConfig "2025-01-01T00:00:00.000Z"
       "test-server" scenarioComponents) = Some (Fin 97)).
  { unfold scenarioConfig, scenarioComponents, mkConfig, mkWeights.
    unfold_scorer. xeval. do 2 f_equal.
    apply (Rround_eq 97). unfold Rmin, Rmax; decide_R. }
  split; [|split; [|split]].
  - unfold scenario_outcome. split; [|split].
    + unfold scenarioConfig, scenarioComponents, mkConfig, mkWeights.
      unfold_scorer. xeval. do 2 f_equal. apply (Rround_IZR 100).
    + unfold scenarioConfig, scenarioComponents, mkConfig, mkWeights.
      unfold_scorer. xeval. do 2 f_equal. apply (Rround_eq 95). lra.
    + exists (Fin 97). split; [exact Hx|]. now xeval.
  - unfold scenario_outcome. split; [|split].
    + vm_compute. reflexivity.
    + vm_compute. reflexivity.
    + eexists. split; vm_compute; reflexivity.
  - exact Hx.
  - vm_compute. reflexivity.
Qed.

(** C10.  With the performance category present, a zero latency is
    treated as an absent one (its term takes the default 50, not 100), a
    zero error rate counts in full (100, where an absent one takes 50),
    and an absent or zero uptime contributes 0; for uptime [u], latency 0
    and error rate 0 the score is [0.5*u + 0.3*50 + 0.2*100]. *)
Theorem C10_zero_fields_asymmetry
    (c : IReputationDataComponents xreal) (u : R)
    (uptime errors latency : option xreal) :
  calculatePerformanceScore (withPerformance uptime (Some (Fin 0)) errors c)
    = calculatePerformanceScore (withPerformance uptime None errors c) /\
  calculatePerformanceScore (withPerformance (Some (Fin 0)) latency errors c)
    = calculatePerformanceScore (withPerformance None latency errors c) /\
  calculatePerformanceScore
    (withPerformance (Some (Fin u)) (Some (Fin 0)) (Some (Fin 0)) c)
    = Fin (0.5 * u + 0.3 * 50 + 0.2 * 100) /\
  calculatePerformanceScore
    (withPerformance (Some (Fin u)) None (Some (Fin 0)) c)
    = Fin (0.5 * u + 0.3 * 50 + 0.2 * 100) /\
  calculatePerformanceScore
    (withPerformance (Some (Fin u)) None None c)
    = Fin (0.5 * u + 0.3 * 50 + 0.2 * 50) /\
  calculatePerformanceScore
    (withPerformance None (Some (Fin 0)) (Some (Fin 0)) c)
    = Fin (0.5 * 0 + 0.3 * 50 + 0.2 * 100) /\
  calculatePerformanceScore
    (withPerformance (Some (Fin u)) (Some (Fin 1)) (Some (Fin 0)) c)
    = Fin (0.5 * u + 0.3 * 99.9 + 0.2 * 100).
Proof.
  unfold calculatePerformanceScore, withPerformance, or_else, if_truthy.
  repeat split; xeval; try reflexivity; f_equal; unfold Rmax; decide_R; lra.
Qed.

(** C1 (as stated, refuted).  For the weights of the scenario and no data
    at all, the confidence level is 36 - in exact arithmetic and in
    binary64 - which is not near zero; and with [minimumReviews = 0] it is
    [NaN], the sample-size factor being 0/0. *)
Lemma C1_confidence_is_not_near_zero :
  confidenceLevel
    (weightedScore (num := xreal) scenarioConfig "" "s" (noData None))
    = Some (Fin 36) /\
  ~ near_zero (Fin 36) /\
  confidenceLevel
    (weightedScore (num := float) scenarioConfig "" "s" (noData None))
    = Some (F64.of_Z 36) /\
  confidenceLevel
    (weightedScore (num := xreal)
       (mkConfig (mkWeights (lit 0.4) (lit 0.3) (lit 0.2) (lit 0.1))
          (lit 30) (lit 0))
       "" "s" (noData None))
    = Some NaN /\
  confidenceLevel
    (weightedScore (num := float)
       (mkConfig (mkWeights (lit 0.4) (lit 0.3) (lit 0.2) (lit 0.1))
          (lit 30) (lit 0))
       "" "s" (noData None))
    = Some PrimFloat.nan.
Proof.
  split; [|split; [|split; [|split]]].
  - unfold weightedScore, createWeightedAlgorithm, calculateScore,
      confidenceLevel. cbn -[calculateConfidence].
    f_equal. apply (no_data_confidence None _ (5 * 5)).
    + cbn. literals. reflexivity.
    + lra.
  - unfold near_zero, between. lra.
  - vm_compute. reflexivity.
  - unfold mkConfig, mkWeights, noData. unfold_scorer. xcompute.
    reflexivity.
  - vm_compute. reflexivity.
Qed.


(* ================================================================== *)
(** * 10. Time decay and normalisation *)
(* ================================================================== *)

(** [applyTimeDecay] for a half-life other than zero. *)
Lemma applyTimeDecay_xreal (now v t h : R) :
  h <> 0 ->
  applyTimeDecay (Fin now) (Fin v) (Fin t) (Fin h) =
  Fin (v * Rpower (/ 2) ((now - t) / 86400000 / h)).
Proof.
  intros Hh. unfold applyTimeDecay. cbn. literals.
  destruct (Req_dec_T (1000 * 60 * 60 * 24) 0) as [E|_]; [lra|].
  cbn. destruct (Req_dec_T h 0) as [E|_]; [contradiction|].
  replace ((now + - t) / (1000 * 60 * 60 * 24) / h)
    with ((now - t) / 86400000 / h) by (field; lra).
  replace (5 * / 10) with (/ 2) by lra.
  cbn. destruct (Req_dec_T _ 0) as [E|_].
  - rewrite E, Rpower_O by lra. reflexivity.
  - unfold XReal.Rpow, XReal.sgn.
    destruct (Rlt_dec 0 (/ 2)) as [_|N]; [reflexivity | lra].
Qed.

(* ================================================================== *)
(** * 11. Outlier detection *)
(* ================================================================== *)

Lemma fold_plus_total (vs : list R) (a : R) :
  fold_left Rplus vs a = a + total vs.
Proof.
  revert a. induction vs as [|v vs IH]; intros a.
  - cbn. lra.
  - change (total (v :: vs)) with (v + total vs).
    cbn [fold_left]. rewrite IH. lra.
Qed.

Lemma sum_fin (vs : list R) : sum (map Fin vs) = Fin (total vs).
Proof.
  unfold sum.
  assert (H : forall a,
    fold_left (fun s val => (s + val)%js) (map Fin vs) (Fin a)
    = Fin (fold_left Rplus vs a)).
  { induction vs as [|v vs IH]; intros a; cbn; [reflexivity | apply IH]. }
  cbn. literals. rewrite H, fold_plus_total. f_equal. lra.
Qed.

Lemma len_fin {A} (xs : list A) :
  len (num := xreal) xs = Fin (INR (length xs)).
Proof.
  unfold len, inject_Z. cbn. literals. now rewrite INR_IZR_INZ.
Qed.

Lemma pow_two (d : R) : jspow (Fin d) (lit 2) = Fin (d * d).
Proof.
  cbn. literals. destruct (Req_dec_T 2 0) as [E|_]; [lra|].
  unfold XReal.Rpow, XReal.sgn.
  destruct (Rlt_dec 0 d) as [Hd|Hd].
  - f_equal. replace 2 with (INR 2) by (cbn; lra).
    rewrite Rpower_pow by exact Hd. cbn. lra.
  - destruct (Rlt_dec d 0) as [Hn|Hn].
    + unfold XReal.is_int. rewrite (ZfloorZ 2).
      destruct (Req_dec_T 2 2) as [_|N]; [|lra].
      f_equal. change (d * (d * 1) = d * d). lra.
    + destruct (Rlt_dec 0 2) as [_|N]; [|lra].
      f_equal. assert (d = 0) by lra. subst d. lra.
Qed.

Lemma total_squares_nonneg (vs : list R) (m : R) :
  0 <= total (map (fun v => (v - m) * (v - m)) vs).
Proof.
  induction vs as [|v vs IH]; [cbn; lra|].
  change (0 <= (v - m) * (v - m)
               + total (map (fun v => (v - m) * (v - m)) vs)).
  pose proof (Rle_0_sqr (v - m)) as Hsq. unfold Rsqr in Hsq. lra.
Qed.

Lemma total_squares_zero (vs : list R) (m : R) :
  total (map (fun v => (v - m) * (v - m)) vs) = 0 ->
  forall v, In v vs -> v = m.
Proof.
  induction vs as [|x vs IH]; intros Hz v Hin; [contradiction|].
  change ((x - m) * (x - m)
          + total (map (fun v => (v - m) * (v - m)) vs) = 0) in Hz.
  pose proof (total_squares_nonneg vs m) as Hpos.
  pose proof (Rle_0_sqr (x - m)) as Hsq. unfold Rsqr in Hsq.
  assert (Hx : (x - m) * (x - m) = 0) by lra.
  assert (Hrest : total (map (fun v => (v - m) * (v - m)) vs) = 0) by lra.
  destruct Hin as [<-|Hin]; [|now apply IH].
  apply Rmult_integral in Hx. lra.
Qed.

(** A zero standard deviation means that every value is the mean. *)
Lemma stdDev_zero (vs : list R) :
  (2 <= length vs)%nat -> stdDev vs = 0 -> forall v, In v vs -> v = mean vs.
Proof.
  intros Hn Hsd.
  assert (Hlen : 0 < INR (length vs)) by (apply lt_0_INR; lia).
  pose proof (total_squares_nonneg vs (mean vs)) as Hpos.
  apply total_squares_zero.
  unfold stdDev in Hsd. apply sqrt_eq_0 in Hsd.
  - unfold Rdiv in Hsd. apply Rmult_integral in Hsd.
    destruct Hsd as [Hs|Hs]; [exact Hs|].
    pose proof (Rinv_0_lt_compat _ Hlen). lra.
  - apply Rmult_le_pos; [exact Hpos|]. left. now apply Rinv_0_lt_compat.
Qed.

(** The [forEach] loop collects, in increasing order, the indices whose
    value passes the test. *)
Lemma forEach_push {A} (test : A -> bool) (xs : list A) (s : nat)
    (acc : list nat) (d : A) :
  fold_left
    (fun (outliers : list nat) '(index, val) =>
       if test val then (outliers ++ [index])%list else outliers)
    (combine (seq s (length xs)) xs) acc
  = (acc ++ List.filter (fun i => test (nth (i - s) xs d))
              (seq s (length xs)))%list.
Proof.
  revert s acc. induction xs as [|x xs IH]; intros s acc; cbn.
  - now rewrite app_nil_r.
  - rewrite IH. replace (s - s)%nat with 0%nat by lia.
    assert (Hext :
      List.filter (fun i => test (nth (i - S s) xs d))
        (seq (S s) (length xs))
      = List.filter
          (fun i => test match (i - s)%nat with
                         | O => x | S m => nth m xs d end)
          (seq (S s) (length xs))).
    { apply filter_ext_in. intros i Hi. apply in_seq in Hi.
      replace (i - s)%nat with (S (i - S s)) by lia. reflexivity. }
    rewrite Hext. destruct (test x); [|reflexivity].
    now rewrite <- app_assoc.
Qed.

Lemma filter_none {A} (f : A -> bool) (l : list A) :
  (forall x, In x l -> f x = false) -> List.filter f l = [].
Proof.
  induction l as [|x l IH]; intros H; [reflexivity|]. cbn.
  rewrite (H x) by now left. apply IH. intros y Hy. apply H. now right.
Qed.

(** What [detectOutliers] computes on a list of at least two finite
    values: the indices that pass the z-score test against the population
    mean and standard deviation, the quotient being taken in the extended
    reals. *)
Lemma detectOutliers_xreal (vs : list R) (z : xreal) :
  (2 <= length vs)%nat ->
  detectOutliers (map Fin vs) (Some z) =
  List.filter
    (fun i =>
       (jsabs ((Fin (nth i vs 0) - Fin (mean vs)) / Fin (stdDev vs)) >? z)%js)
    (seq 0 (length vs)).
Proof.
  intros Hn.
  assert (Hlen : INR (length vs) <> 0).
  { apply not_0_INR. lia. }
  unfold detectOutliers. cbn [default]. cbv zeta. unfold Datatypes.id.
  rewrite length_map.
  destruct (Nat.ltb_spec (length vs) 2) as [Hlt|_]; [lia|].
  rewrite sum_fin, !len_fin, !length_map.
  assert (Hmean : (Fin (total vs) / Fin (INR (length vs)))%js
                  = Fin (mean vs)).
  { cbn. destruct (Req_dec_T (INR (length vs)) 0); [contradiction|].
    reflexivity. }
  rewrite Hmean.
  assert (Hsq : map (fun val => jspow (val - Fin (mean vs))%js (lit 2))
                  (map Fin vs)
                = map Fin (map (fun v => (v - mean vs) * (v - mean vs)) vs)).
  { rewrite !map_map. apply map_ext. intros v.
    change (Fin v - Fin (mean vs))%js with (Fin (v - mean vs)).
    apply pow_two. }
  rewrite Hsq, sum_fin.
  assert (Hsd : jssqrt (div (Fin (total (map (fun v => (v - mean vs)
                                                * (v - mean vs)) vs)))
                            (Fin (INR (length vs))))
                = Fin (stdDev vs)).
  { cbn. destruct (Req_dec_T (INR (length vs)) 0); [contradiction|].
    cbn. destruct (Rlt_dec _ 0) as [Hneg|_]; [|reflexivity].
    exfalso. pose proof (total_squares_nonneg vs (mean vs)) as Hpos.
    assert (0 < / INR (length vs)).
    { apply Rinv_0_lt_compat. apply lt_0_INR. lia. }
    unfold Rdiv in Hneg. nra. }
  rewrite Hsd.
  pose proof (forEach_push
             (fun val =>
                (jsabs ((val - Fin (mean vs)) / Fin (stdDev vs)) >? z)%js)
             (map Fin vs) 0 [] (Fin 0)) as Hpush.
  rewrite length_map in Hpush. rewrite Hpush. clear Hpush. cbn [app].
  apply filter_ext_in. intros i _.
  rewrite Nat.sub_0_r, (map_nth Fin vs 0 i). reflexivity.
Qed.

Lemma total_const (vs : list R) (c : R) :
  (forall v, In v vs -> v = c) -> total vs = INR (length vs) * c.
Proof.
  induction vs as [|x vs IH]; intros H; [cbn; lra|].
  change (total (x :: vs)) with (x + total vs).
  change (length (x :: vs)) with (S (length vs)). rewrite S_INR.
  rewrite IH by (intros v Hv; apply H; now right).
  rewrite (H x) by now left. lra.
Qed.

Lemma total_map_zero (f : R -> R) (vs : list R) :
  (forall v, In v vs -> f v = 0) -> total (map f vs) = 0.
Proof.
  induction vs as [|x vs IH]; intros H; [reflexivity|].
  change (f x + total (map f vs) = 0).
  rewrite IH by (intros v Hv; apply H; now right).
  rewrite (H x) by now left. lra.
Qed.

Lemma identical_stdDev_zero (vs : list R) (c : R) :
  (forall v, In v vs -> v = c) -> stdDev vs = 0.
Proof.
  intros Hsame. unfold stdDev.
  rewrite total_map_zero.
  - unfold Rdiv. rewrite Rmult_0_l. apply sqrt_0.
  - intros v Hv.
    assert (Hmean : mean vs = c).
    { unfold mean. rewrite (total_const vs c Hsame).
      assert (INR (length vs) <> 0).
      { apply not_0_INR. destruct vs; [contradiction | discriminate]. }
      field. assumption. }
    rewrite Hmean, (Hsame v Hv). lra.
Qed.

(** In exact arithmetic, on a list of finite numbers [detectOutliers]
    returns no outlier for fewer than two values, no outlier when the
    population standard deviation is zero - in particular when all values
    are identical - and otherwise exactly the indices [i], in increasing
    order, with [|values[i] - mean| / stdDev > z], mean and standard
    deviation being those of the population (divisor [N]).  The threshold
    defaults to 2.5. *)
Lemma detectOutliers_exact (vs : list R) (z c : R) :
  ((length vs < 2)%nat -> detectOutliers (map Fin vs) (Some (Fin z)) = []) /\
  (stdDev vs = 0 -> detectOutliers (map Fin vs) (Some (Fin z)) = []) /\
  ((forall v, In v vs -> v = c) ->
   detectOutliers (map Fin vs) (Some (Fin z)) = []) /\
  ((2 <= length vs)%nat -> stdDev vs <> 0 ->
   detectOutliers (map Fin vs) (Some (Fin z))
   = List.filter (is_outlier vs z) (seq 0 (length vs))) /\
  detectOutliers (map Fin vs) None
  = detectOutliers (map Fin vs) (Some (Fin 2.5)).
Proof.
  assert (Hshort : (length vs < 2)%nat ->
                   detectOutliers (map Fin vs) (Some (Fin z)) = []).
  { intros Hlt. unfold detectOutliers. rewrite length_map.
    destruct (Nat.ltb_spec (length vs) 2) as [_|Hge]; [reflexivity | lia]. }
  assert (Hzero : stdDev vs = 0 ->
                  detectOutliers (map Fin vs) (Some (Fin z)) = []).
  { intros Hsd.
    destruct (Nat.lt_ge_cases (length vs) 2) as [Hlt|Hge]; [auto|].
    rewrite detectOutliers_xreal by exact Hge.
    apply filter_none. intros i Hi. apply in_seq in Hi.
    rewrite (stdDev_zero vs Hge Hsd (nth i vs 0)) by (apply nth_In; lia).
    rewrite Hsd. xcompute; reflexivity. }
  split; [exact Hshort|]. split; [exact Hzero|]. split; [|split].
  - intros Hsame. apply Hzero. now apply (identical_stdDev_zero vs c).
  - intros Hge Hsd. rewrite detectOutliers_xreal by exact Hge.
    apply filter_ext_in. intros i _. unfold is_outlier.
    assert (Hpos : 0 < stdDev vs).
    { pose proof (sqrt_pos
        (total (map (fun v => (v - mean vs) * (v - mean vs)) vs)
         / INR (length vs))) as Hs.
      fold (stdDev vs) in Hs. lra. }
    cbn. destruct (Req_dec_T (stdDev vs) 0) as [E|_]; [contradiction|].
    cbn. fold (nth i vs 0 - mean vs).
    replace (Rabs ((nth i vs 0 - mean vs) / stdDev vs))
      with (Rabs (nth i vs 0 - mean vs) / stdDev vs).
    + reflexivity.
    + unfold Rdiv. rewrite Rabs_mult, (Rabs_pos_eq (/ stdDev vs)).
      * reflexivity.
      * left. now apply Rinv_0_lt_compat.
  - unfold detectOutliers. cbn [default]. literals.
    replace (25 * / 10) with 2.5 by lra. reflexivity.
Qed.

End Claims.

(* ================================================================== *)
(** * 11a. The claims on binary64 *)
(* ================================================================== *)

Section ClaimsBinary64.

Import Spec Ranges.
Local Open Scope string_scope.
Local Open Scope js_scope.

(** The confidence level of a bundle without data, in binary64: with a
    positive [idealReviews], finite or not, the sample-size quotient is
    [0 / idealReviews = 0] and the rest is constant. *)
Lemma no_data_confidence_binary64
    (custom : option (Dict (CustomValue float)))
    (cfg : ConfidenceConfig float) :
  PrimFloat.ltb (lit 0) (idealReviews cfg) = true ->
  ConfidenceResult.level (calculateConfidence (noData custom) cfg)
  = lit 36.
Proof.
  intros Hpos. unfold calculateConfidence.
  cbn [noData feedbackMetrics verificationDetails mbind option_bind
       or_else if_truthy].
  change (@lit float float_number 0) with PrimFloat.zero in *.
  change (@div float float_number) with PrimFloat.div.
  rewrite (zero_div_pos _ Hpos
           : PrimFloat.div PrimFloat.zero (idealReviews cfg)
             = PrimFloat.zero).
  vm_compute. reflexivity.
Qed.

(** C1 (amended).  In binary64, for all weights, whatever they are, the
    score of a bundle with the four categories absent is a full record
    with categories 50, 0, 50 and 50, [dataPoints = 0] and the overall
    score [Math.round(Math.min(100, Math.max(0, 50*performance +
    0*verification + 50*feedback + 50*usage)))], every operation being
    the engine's; when [idealReviews = minimumReviews * 5] is greater
    than 0 its confidence level is 36.  In exact arithmetic 36 is the
    least level of any bundle whose [rating_count] is absent or not
    negative. *)
Theorem C1_no_data_score
    (wp wv wf wu decay m : float)
    (custom : option (Dict (CustomValue float))) (now sid : string) :
  let cfg := mkConfig (mkWeights wp wv wf wu) decay m in
  let score := weightedScore cfg now sid (noData custom) in
  serverId score = sid /\
  lastUpdated score = now /\
  algorithm score = Some "weighted-score-v1" /\
  categories score =
    Some [("performance", lit 50); ("verification", lit 0);
          ("feedback", lit 50); ("usage", lit 50)] /\
  dataPoints score = Some (lit 0) /\
  overallScore score =
    Some (round (jsmin (lit 100)
                   (jsmax (lit 0)
                      (lit 50 * wp + lit 0 * wv + lit 50 * wf
                       + lit 50 * wu)))) /\
  (PrimFloat.ltb (lit 0) (m * lit 5) = true ->
   confidenceLevel score = Some (lit 36)) /\
  (forall (c : IReputationDataComponents xreal) (w : Weights xreal)
          (d : xreal) (r : R),
     (0 < r)%R -> rating_count_is_count c ->
     exists l,
       confidenceLevel (weightedScore (mkConfig w d (Fin r)) now sid c)
       = Some (Fin l) /\ (36 <= l)%R).
Proof.
  intros cfg score.
  split; [reflexivity|]. split; [reflexivity|]. split; [reflexivity|].
  split; [vm_compute; reflexivity|].
  split; [vm_compute; reflexivity|].
  split; [reflexivity|].
  split.
  - intros Hpos. unfold score, weightedScore, createWeightedAlgorithm,
      calculateScore, confidenceLevel, cfg.
    cbn -[calculateConfidence noData]. f_equal.
    now apply no_data_confidence_binary64.
  - intros c w d r Hr Hc.
    assert (Hi :
      confidenceLevel (weightedScore (mkConfig w d (Fin r)) now sid c) =
      Some (ConfidenceResult.level (calculateConfidence c
         {| minReviews := Fin r; idealReviews := Fin (r * 5);
            minAge := lit 7; idealAge := lit 30;
            verificationImportance := lit 0.2 |}))).
    { unfold weightedScore, createWeightedAlgorithm, calculateScore,
        confidenceLevel. cbn -[calculateConfidence]. literals.
      reflexivity. }
    rewrite Hi.
    destruct (confidence_level_bounds c
      {| minReviews := Fin r; idealReviews := Fin (r * 5);
         minAge := lit 7; idealAge := lit 30;
         verificationImportance := lit 0.2 |} (r * 5)%R)
      as (l & Hl & Hb); [reflexivity | lra | exact Hc |].
    exists l. rewrite Hl. split; [reflexivity | lra].
Qed.






(** C3 (as stated, refuted).  In binary64, whatever the engine's
    approximation of the inexact powers: a half-life of 0 is not
    rejected, a value of 5 recorded one day before the clock reading
    comes back as 0; a half-life of -1 day is not rejected either and
    doubles the value; and [normalizeScore(5, 3, 3)] is [NaN], not a
    fallback value. *)
Lemma C3_degenerate_calls_return :
  (forall approx,
     applyTimeDecay (JM := float_math approx)
       (lit 172800000) (lit 5) (lit 86400000) (lit 0) = lit 0) /\
  (forall approx,
     applyTimeDecay (JM := float_math approx)
       (lit 172800000) (lit 5) (lit 86400000) (lit (-1)) = lit 10) /\
  normalizeScore (num := float) (lit 5) (lit 3) (lit 3) = PrimFloat.nan.
Proof.
  split; [|split]; try intros approx; vm_compute; reflexivity.
Qed.

(** C3 (amended).  [applyTimeDecay] does not validate the half-life.  In
    binary64, for every value, clock reading and timestamp whose age in
    days computes to a positive number, a half-life of [+0] gives
    [value * 0] and a half-life of [-0] gives [value * Infinity]: the
    quotient [ageDays / halfLifeDays] is an infinity and no error is
    raised.  A negative half-life is used like any other: -1 day doubles
    a value that is one day old. *)
Theorem C3_no_validation
    (approx : float -> float -> float) (now value t : float) :
  PrimFloat.ltb (lit 0)
    ((now - t) / (lit 1000 * lit 60 * lit 60 * lit 24)) = true ->
  applyTimeDecay (JM := float_math approx) now value t (lit 0)
  = value * lit 0 /\
  applyTimeDecay (JM := float_math approx) now value t PrimFloat.neg_zero
  = value * PrimFloat.infinity /\
  applyTimeDecay (JM := float_math approx)
    (lit 172800000) (lit 5) (lit 86400000) (lit (-1)) = lit 10.
Proof.
  intros Hage.
  destruct (pos_div_zero _ Hage) as (Hplus & Hminus).
  assert (Hp : (now - t) / (lit 1000 * lit 60 * lit 60 * lit 24) / lit 0
               = PrimFloat.infinity) by exact Hplus.
  assert (Hm : (now - t) / (lit 1000 * lit 60 * lit 60 * lit 24)
               / PrimFloat.neg_zero
               = PrimFloat.neg_infinity) by exact Hminus.
  unfold applyTimeDecay. cbv zeta. rewrite Hp, Hm.
  split; [|split]; vm_compute; reflexivity.
Qed.

(** C4.  Three identical values are all reported as outliers: in
    binary64 the mean of [0.1, 0.1, 0.1] is 0.10000000000000002, every
    value lies one standard deviation (2^-56) below it, and at the
    threshold 0.5 the result is [[0, 1, 2]], whatever the engine's
    approximation of the inexact powers.  In exact arithmetic the same
    call returns no index, and three values of 1, whose mean is exact,
    give none in binary64 either. *)
Theorem C4_identical_values_flagged (approx : float -> float -> float) :
  detectOutliers (JM := float_math approx)
    [lit 0.1; lit 0.1; lit 0.1] (Some (lit 0.5))
  = [0; 1; 2]%nat /\
  detectOutliers (JM := float_math approx)
    [lit 1; lit 1; lit 1] (Some (lit 0.5))
  = [] /\
  detectOutliers (map Fin [0.1; 0.1; 0.1]%R) (Some (Fin 0.5)) = [].
Proof.
  split; [|split].
  - vm_compute. reflexivity.
  - vm_compute. reflexivity.
  - apply (detectOutliers_exact [0.1; 0.1; 0.1]%R 0.5 0.1).
    intros v [<-|[<-|[<-|[]]]]; reflexivity.
Qed.

(** C5 (as stated, refuted).  In binary64 the decay is not strict: with
    a half-life of one day, a value of 1 is exactly 0 after 1100 days and
    after 1200 days alike, [0.5 ** 1100] and [0.5 ** 1200] being below
    the smallest double. *)
Lemma C5_decay_underflows :
  (forall approx,
     applyTimeDecay (JM := float_math approx)
       (lit 103680000000) (lit 1) (lit 8640000000) (lit 1) = lit 0) /\
  (forall approx,
     applyTimeDecay (JM := float_math approx)
       (lit 103680000000) (lit 1) (lit 0) (lit 1) = lit 0) /\
  PrimFloat.ltb (lit 0) (lit 0) = false.
Proof.
  split; [|split]; try intros approx; vm_compute; reflexivity.
Qed.

(** In binary64, a value [v] with a half-life of one day, [n] days old:
    the result is the rounded product of [v] and the double [2^-n], which
    is 0 from 1075 days on. *)
Lemma decay_by_days_binary64
    (approx : float -> float -> float) (v : float) (n : nat) :
  (n <= 1100)%nat ->
  applyTimeDecay (JM := float_math approx)
    (F64.of_Z (Z.of_nat n * 86400000)) v (lit 0) (lit 1)
  = v * FloatOps.Z.ldexp PrimFloat.one (- Z.of_nat n) /\
  PrimFloat.is_zero (FloatOps.Z.ldexp PrimFloat.one (- Z.of_nat n))
  = (1075 <=? n)%nat.
Proof.
  intros Hn.
  assert (Hall :
    forallb (fun k =>
      PrimFloat.Leibniz.eqb
        (jspow (JsMath := float_math approx) (lit 0.5)
           ((F64.of_Z (Z.of_nat k * 86400000) - lit 0)
            / (lit 1000 * lit 60 * lit 60 * lit 24) / lit 1))
        (FloatOps.Z.ldexp PrimFloat.one (- Z.of_nat k))
      && Bool.eqb
           (PrimFloat.is_zero
              (FloatOps.Z.ldexp PrimFloat.one (- Z.of_nat k)))
           (1075 <=? k)%nat)
      (seq 0 1101) = true) by (vm_compute; reflexivity).
  rewrite forallb_forall in Hall.
  specialize (Hall n ltac:(apply in_seq; lia)).
  apply andb_true_iff in Hall as (Heq & Hzero).
  apply FloatAxioms.Leibniz.eqb_spec in Heq.
  split.
  - unfold applyTimeDecay. cbv zeta. now rewrite Heq.
  - now apply Bool.eqb_prop.
Qed.

(** C5 (amended).  In exact arithmetic, for a half-life [h > 0], a value
    recorded exactly [n] half-lives before the clock reading decays to
    [v * 0.5^n], and for a value [w > 0] the decayed value is strictly
    smaller for the older of two timestamps.  In binary64 the decrease is
    not strict: with a half-life of one day every value [x] is the
    rounded product [x * 2^-k] after [k] days, for every [k] up to 1100,
    and the double [2^-k] is 0 from 1075 days on. *)
Theorem C5_time_decay (v w h now t_old t_new : R) (n : nat) :
  (0 < h)%R -> (0 < w)%R -> (t_old < t_new)%R ->
  applyTimeDecay (Fin now) (Fin v)
    (Fin (now - INR n * h * 86400000)) (Fin h)
    = Fin (v * (/ 2) ^ n) /\
  (exists d_old d_new,
     applyTimeDecay (Fin now) (Fin w) (Fin t_old) (Fin h) = Fin d_old /\
     applyTimeDecay (Fin now) (Fin w) (Fin t_new) (Fin h) = Fin d_new /\
     (d_old < d_new)%R) /\
  (forall approx (x : float) (k : nat), (k <= 1100)%nat ->
     applyTimeDecay (JM := float_math approx)
       (F64.of_Z (Z.of_nat k * 86400000)) x (lit 0) (lit 1)
     = x * FloatOps.Z.ldexp PrimFloat.one (- Z.of_nat k) /\
     PrimFloat.is_zero (FloatOps.Z.ldexp PrimFloat.one (- Z.of_nat k))
     = (1075 <=? k)%nat).
Proof.
  intros Hh Hw Ht. split; [|split].
  - rewrite applyTimeDecay_xreal by lra.
    replace ((now - (now - INR n * h * 86400000)) / 86400000 / h)%R
      with (INR n) by (field; lra).
    rewrite Rpower_pow by lra. reflexivity.
  - rewrite !applyTimeDecay_xreal by lra.
    eexists _, _. split; [reflexivity|]. split; [reflexivity|].
    apply Rmult_lt_compat_l; [exact Hw|].
    unfold Rpower. apply exp_increasing.
    assert (Hln : (ln (/ 2) < 0)%R).
    { rewrite ln_Rinv by lra. pose proof ln_lt_2. lra. }
    assert (Hage : ((now - t_new) / 86400000 / h
                    < (now - t_old) / 86400000 / h)%R).
    { apply Rmult_lt_compat_r; [now apply Rinv_0_lt_compat|].
      apply Rmult_lt_compat_r; lra. }
    nra.
  - intros approx x k Hk. now apply decay_by_days_binary64.
Qed.

(** C9 (as stated, refuted).  A negative [rating_count] is not rejected
    and lowers the level below 36: -10 ratings with 25 ideal reviews give
    a sample-size factor of -40 and a level of 24, in binary64 and in
    exact arithmetic. *)
Lemma C9_negative_count_below_floor :
  ConfidenceResult.level
    (calculateConfidence (num := float) (withRatingCount (lit (-10)))
       testConfidenceConfig) = lit 24 /\
  PrimFloat.ltb (lit 24) (lit 36) = true /\
  ConfidenceResult.level
    (calculateConfidence (num := xreal) (withRatingCount (lit (-10)))
       testConfidenceConfig) = Fin 24 /\
  ~ between 36 100 (Fin 24).
Proof.
  split; [|split; [|split]].
  - vm_compute. reflexivity.
  - vm_compute. reflexivity.
  - unfold withRatingCount, testConfidenceConfig, calculateConfidence,
      or_else, if_truthy. xcompute.
    f_equal. apply (Rround_eq 24). lra.
  - unfold between. lra.
Qed.

End ClaimsBinary64.

(* ================================================================== *)
(** * 12. The in-memory storage *)
(* ================================================================== *)

Section StorageFacts.

Context {num : Type}.

Implicit Types (this : LocalReputationStorage num)
               (score : IReputationScore num).

(** Reading back the score just saved. *)
Lemma save_then_get this score :
  getReputationScore (saveReputationScore this score) (serverId score)
  = Some score.
Proof.
  unfold getReputationScore, saveReputationScore. cbn.
  apply lookup_insert_eq.
Qed.

(** Saving for one server leaves the current score of the others. *)
Lemma save_then_get_other this score (other : string) :
  other <> serverId score ->
  getReputationScore (saveReputationScore this score) other
  = getReputationScore this other.
Proof.
  intros Hne. unfold getReputationScore, saveReputationScore. cbn.
  now apply lookup_insert_ne.
Qed.

Lemma history_after_saves this (scores : list (IReputationScore num))
    (sid : string) :
  Forall (fun s => serverId s = sid) scores ->
  default [] (history (saveAll this scores) !! sid)
  = default [] (history this !! sid) ++ scores.
Proof.
  unfold saveAll. revert this.
  induction scores as [|s scores IH]; intros this Hall; cbn [fold_left].
  - now rewrite app_nil_r.
  - inversion Hall as [|? ? Hs Hrest]; subst.
    rewrite IH by exact Hrest.
    unfold saveReputationScore. cbn [history].
    rewrite lookup_insert_eq. cbn [default].
    unfold Datatypes.id. now rewrite <- app_assoc.
Qed.

(** With a limit of at least one, the history read after saving [scores]
    into a new storage is their last [min(n, limit)], oldest first. *)
Lemma history_last_scores (scores : list (IReputationScore num))
    (sid : string) (limit : Z) :
  Forall (fun s => serverId s = sid) scores ->
  (1 <= limit)%Z ->
  getReputationHistory (saveAll newLocalReputationStorage scores) sid
    (Some limit)
  = drop (length scores - Z.to_nat limit) scores /\
  length (getReputationHistory (saveAll newLocalReputationStorage scores)
            sid (Some limit))
  = Nat.min (length scores) (Z.to_nat limit).
Proof.
  intros Hall Hlimit.
  assert (Hget :
    getReputationHistory (saveAll newLocalReputationStorage scores) sid
      (Some limit)
    = drop (length scores - Z.to_nat limit) scores).
  { unfold getReputationHistory. cbn [default]. unfold Datatypes.id.
    rewrite (history_after_saves _ _ _ Hall).
    cbn [newLocalReputationStorage history]. rewrite lookup_empty.
    cbn [default app]. unfold array_slice.
    destruct (Z.ltb_spec (- limit) 0) as [_|Hge]; [|lia].
    f_equal. lia. }
  split; [exact Hget|].
  rewrite Hget, length_drop. lia.
Qed.

(** A limit of zero returns the whole history. *)
Lemma history_limit_zero (scores : list (IReputationScore num))
    (sid : string) :
  Forall (fun s => serverId s = sid) scores ->
  getReputationHistory (saveAll newLocalReputationStorage scores) sid
    (Some 0%Z)
  = scores.
Proof.
  intros Hall. unfold getReputationHistory. cbn [default].
  unfold Datatypes.id.
  rewrite (history_after_saves _ _ _ Hall).
  cbn [newLocalReputationStorage history]. rewrite lookup_empty.
  cbn [default app]. unfold array_slice. cbn.
  destruct (length scores); reflexivity.
Qed.

End StorageFacts.

(** C8.  Saving the three scores of the test-suite and asking for the
    history with a limit of 0 returns all three, oldest first, where
    [min(3, 0) = 0] scores were announced: [slice(-0)] is [slice(0)].
    With the limits 10 and 2 the same store returns all three and the
    last two, and the score read back after a save is the saved one. *)
Theorem C8_history_limit_zero :
  let saved := [testScore 80; testScore 85; testScore 90] in
  let store := saveAll newLocalReputationStorage saved in
  getReputationHistory store "test-server" (Some 0%Z) = saved /\
  length (getReputationHistory store "test-server" (Some 0%Z)) = 3%nat /\
  Nat.min 3 0 = 0%nat /\
  getReputationHistory store "test-server" (Some 10%Z) = saved /\
  getReputationHistory store "test-server" None = saved /\
  getReputationHistory store "test-server" (Some 2%Z)
    = [testScore 85; testScore 90] /\
  getReputationScore store "test-server" = Some (testScore 90).
Proof.
  cbv zeta. repeat split; vm_compute; reflexivity.
Qed.

(* ================================================================== *)
(** * 13. The theorems at concrete inputs *)
(* ================================================================== *)

Section Instances.

Import Spec.
Local Open Scope R_scope.
Local Open Scope string_scope.

(** [C1_no_data_score] at the weights of the scenario and five minimum
    reviews, in binary64. *)
Lemma C1_no_data_score_at_scenario_weights :
  confidenceLevel
    (weightedScore (num := float)
       (mkConfig (mkWeights (lit 0.4) (lit 0.3) (lit 0.2) (lit 0.1))
          (lit 30) (lit 5))
       "2025-01-01T00:00:00.000Z" "test-server" (noData None))
  = Some (lit 36).
Proof.
  apply (C1_no_data_score (lit 0.4) (lit 0.3) (lit 0.2) (lit 0.1)
           (lit 30) (lit 5) None
           "2025-01-01T00:00:00.000Z" "test-server").
  reflexivity.
Defined.

(** [C3_no_validation] for a value recorded one day before the clock
    reading. *)
Lemma C3_no_validation_at_one_day :
  (forall approx,
     applyTimeDecay (JM := float_math approx)
       (lit 172800000) (lit 5) (lit 86400000) (lit 0) = lit 0) /\
  (forall approx,
     applyTimeDecay (JM := float_math approx)
       (lit 172800000) (lit 5) (lit 86400000) PrimFloat.neg_zero
     = PrimFloat.infinity).
Proof.
  split; intros approx.
  - exact (proj1 (C3_no_validation approx
                    (lit 172800000) (lit 5) (lit 86400000) eq_refl)).
  - exact (proj1 (proj2 (C3_no_validation approx
                           (lit 172800000) (lit 5) (lit 86400000)
                           eq_refl))).
Defined.

(** [C5_time_decay] for a half-life of 30 days, 90 days after the epoch. *)
Lemma C5_time_decay_at_three_half_lives :
  applyTimeDecay (Fin 7776000000) (Fin 100)
    (Fin (7776000000 - INR 3 * 30 * 86400000)) (Fin 30)
  = Fin (100 * (/ 2) ^ 3) /\
  exists d_old d_new,
    applyTimeDecay (Fin 7776000000) (Fin 100) (Fin 0) (Fin 30) = Fin d_old /\
    applyTimeDecay (Fin 7776000000) (Fin 100) (Fin 86400000) (Fin 30)
      = Fin d_new /\
    d_old < d_new.
Proof.
  destruct (C5_time_decay 100 100 30 7776000000 0 86400000 3)
    as (Hn & Hstrict & _); [lra | lra | lra |].
  exact (conj Hn Hstrict).
Defined.

(** [C6_confidence_factors] at the bundle of the scenario, 25 ideal
    reviews. *)
Lemma C6_confidence_factors_at_scenario :
  exists sample verified : R,
    ConfidenceResult.factors
      (calculateConfidence scenarioComponents testConfidenceConfig)
      = [("sample_size", Fin sample); ("consistency", Fin 70);
         ("diversity", Fin 60); ("recency", Fin 80);
         ("verification_level", Fin verified)] /\
    sample = Rmin 100 (reviews scenarioComponents / 25 * 100) /\
    (feedbackMetrics (num := xreal) scenarioComponents = None -> sample = 0)
    /\
    (stated_level scenarioComponents = Some "gold" -> verified = 100) /\
    (stated_level scenarioComponents = Some "silver" -> verified = 75) /\
    (stated_level scenarioComponents = Some "bronze" -> verified = 50) /\
    (stated_level scenarioComponents <> Some "gold" ->
     stated_level scenarioComponents <> Some "silver" ->
     stated_level scenarioComponents <> Some "bronze" -> verified = 0) /\
    ConfidenceResult.level
      (calculateConfidence scenarioComponents testConfidenceConfig)
      = Fin (XReal.Rround
               (0.3 * sample + 0.2 * 70 + 0.1 * 60 + 0.2 * 80
                + 0.2 * verified)).
Proof.
  apply (C6_confidence_factors scenarioComponents testConfidenceConfig 25).
  - cbn. literals. reflexivity.
  - lra.
  - exact I.
Defined.

(** [C9_confidence_level_floor] at the bundle of the scenario. *)
Lemma C9_confidence_level_floor_at_scenario :
  exists l,
    ConfidenceResult.level
      (calculateConfidence scenarioComponents testConfidenceConfig)
      = Fin l /\ 36 <= l <= 100.
Proof.
  apply (C9_confidence_level_floor scenarioComponents testConfidenceConfig
           25 None).
  - cbn. literals. reflexivity.
  - lra.
  - cbn. literals. lra.
Defined.

End Instances.

(* ================================================================== *)
(** * 14. The cases of the test-suite *)
(* ================================================================== *)

Section TestSuite.

Import Spec.
Local Open Scope R_scope.
Local Open Scope string_scope.

(** The cases of the test-suite for [normalizeScore]. *)
Example normalizeScore_tests :
  normalizeScore (Fin 5) (Fin 0) (Fin 10) = Fin 50 /\
  normalizeScore (Fin 7.5) (Fin 5) (Fin 10) = Fin 50 /\
  normalizeScore (Fin 0) (Fin 0) (Fin 10) = Fin 0 /\
  normalizeScore (Fin 10) (Fin 0) (Fin 10) = Fin 100 /\
  normalizeScore (Fin (-5)) (Fin 0) (Fin 10) = Fin 0 /\
  normalizeScore (Fin 15) (Fin 0) (Fin 10) = Fin 100.
Proof.
  unfold normalizeScore.
  repeat split; xcompute; f_equal; first [lra | field; lra].
Qed.

Example normalizeScore_tests_binary64 :
  normalizeScore (F64.of_Q 5) (F64.of_Q 0) (F64.of_Q 10) = F64.of_Q 50 /\
  normalizeScore (F64.of_Q 7.5) (F64.of_Q 5) (F64.of_Q 10) = F64.of_Q 50 /\
  normalizeScore (F64.of_Q 0) (F64.of_Q 0) (F64.of_Q 10) = F64.of_Q 0 /\
  normalizeScore (F64.of_Q 10) (F64.of_Q 0) (F64.of_Q 10) = F64.of_Q 100 /\
  normalizeScore (F64.of_Q (-5)) (F64.of_Q 0) (F64.of_Q 10) = F64.of_Q 0 /\
  normalizeScore (F64.of_Q 15) (F64.of_Q 0) (F64.of_Q 10) = F64.of_Q 100.
Proof.
  repeat split; vm_compute; reflexivity.
Qed.

(** The z-score test of the loop, for a positive standard deviation. *)
Lemma zscore_test (v m sd z : R) :
  0 < sd ->
  (jsabs ((Fin v - Fin m) / Fin sd) >? Fin z)%js
  = if Rlt_dec (z * sd) (Rabs (v - m)) then true else false.
Proof.
  intros Hsd. cbn. destruct (Req_dec_T sd 0) as [E|_]; [lra|]. cbn.
  fold (v - m).
  assert (Habs : Rabs ((v - m) / sd) = Rabs (v - m) / sd).
  { unfold Rdiv. rewrite Rabs_mult, (Rabs_pos_eq (/ sd)); [reflexivity|].
    left. now apply Rinv_0_lt_compat. }
  rewrite Habs.
  destruct (Rlt_dec z (Rabs (v - m) / sd)) as [H|H];
    destruct (Rlt_dec (z * sd) (Rabs (v - m))) as [H'|H']; try reflexivity;
    exfalso.
  - apply H'. apply (Rmult_lt_compat_r sd) in H; [|exact Hsd].
    unfold Rdiv in H. rewrite Rmult_assoc, Rinv_l, Rmult_1_r in H; lra.
  - apply H. apply (Rmult_lt_reg_r sd); [exact Hsd|].
    unfold Rdiv. rewrite Rmult_assoc, Rinv_l, Rmult_1_r; lra.
Qed.

(** The first case of the test-suite for [detectOutliers]: the value 20,
    at index 8, is the one outlier for a threshold of 2. *)
Example detectOutliers_high :
  detectOutliers (map Fin [2; 3; 3; 4; 4; 4; 5; 5; 20]) (Some (Fin 2))
  = [8%nat].
Proof.
  set (vs := [2; 3; 3; 4; 4; 4; 5; 5; 20]).
  rewrite detectOutliers_xreal by (cbn; lia).
  assert (Hmean : mean vs = 50 / 9).
  { unfold mean, total, vs. cbn. field. }
  assert (Hvar : total (map (fun v => (v - mean vs) * (v - mean vs)) vs)
                 / INR (length vs) = 2180 / 81).
  { rewrite Hmean. unfold total, vs. cbn. field. }
  assert (Hsd : 5 < stdDev vs < 6).
  { unfold stdDev. rewrite Hvar.
    assert (H5 : sqrt 25 = 5).
    { replace 25 with (5 * 5) by lra. apply sqrt_square. lra. }
    assert (H6 : sqrt 36 = 6).
    { replace 36 with (6 * 6) by lra. apply sqrt_square. lra. }
    rewrite <- H5, <- H6. split; apply sqrt_lt_1; lra. }
  rewrite Hmean. generalize dependent (stdDev vs). intros sd Hsd.
  unfold vs. cbn [length seq List.filter nth].
  rewrite !zscore_test by lra.
  unfold Rabs. decide_R; reflexivity.
Qed.

(** The second case: the value 1, at index 0, is the one outlier. *)
Example detectOutliers_low :
  detectOutliers (map Fin [1; 10; 10; 11; 11; 12; 12; 13]) (Some (Fin 2))
  = [0%nat].
Proof.
  set (vs := [1; 10; 10; 11; 11; 12; 12; 13]).
  rewrite detectOutliers_xreal by (cbn; lia).
  assert (Hmean : mean vs = 10).
  { unfold mean, total, vs. cbn. field. }
  assert (Hvar : total (map (fun v => (v - mean vs) * (v - mean vs)) vs)
                 / INR (length vs) = 25 / 2).
  { rewrite Hmean. unfold total, vs. cbn. field. }
  assert (Hsd : 3 < stdDev vs < 4).
  { unfold stdDev. rewrite Hvar.
    assert (H3 : sqrt 9 = 3).
    { replace 9 with (3 * 3) by lra. apply sqrt_square. lra. }
    assert (H4 : sqrt 16 = 4).
    { replace 16 with (4 * 4) by lra. apply sqrt_square. lra. }
    rewrite <- H3, <- H4. split; apply sqrt_lt_1; lra. }
  rewrite Hmean. generalize dependent (stdDev vs). intros sd Hsd.
  unfold vs. cbn [length seq List.filter nth].
  rewrite !zscore_test by lra.
  unfold Rabs. decide_R; reflexivity.
Qed.

(** Lists of length 0 and 1. *)
Example detectOutliers_short (v : xreal) :
  detectOutliers (num := xreal) [] None = [] /\
  detectOutliers [v] None = [].
Proof. split; reflexivity. Qed.

(** [calculateConfidence] on twenty ratings and a silver verification,
    with 25 ideal reviews. *)
Example calculateConfidence_silver :
  calculateConfidence (num := xreal) silverComponents testConfidenceConfig
  = {| ConfidenceResult.level := Fin 75;
       ConfidenceResult.factors :=
         [("sample_size", Fin 80); ("consistency", Fin 70);
          ("diversity", Fin 60); ("recency", Fin 80);
          ("verification_level", Fin 75)] |} /\
  calculateConfidence (num := float) silverComponents testConfidenceConfig
  = {| ConfidenceResult.level := F64.of_Z 75;
       ConfidenceResult.factors :=
         [("sample_size", F64.of_Z 80); ("consistency", F64.of_Z 70);
          ("diversity", F64.of_Z 60); ("recency", F64.of_Z 80);
          ("verification_level", F64.of_Z 75)] |}.
Proof.
  split; [|vm_compute; reflexivity].
  rewrite (calculateConfidence_xreal _ _ 25);
    [| cbn; literals; reflexivity | lra | exact I].
  unfold blend, sample_size, reviews, stated_level, level_points.
  cbn. literals.
  replace (Rmin 100 (20 / 25 * 100)) with 80
    by (unfold Rmin; decide_R; lra).
  do 2 f_equal. apply (Rround_eq 75). lra.
Qed.

End TestSuite.

(* ================================================================== *)
(** * 15. Normalisation and time decay, further properties *)
(* ================================================================== *)

Section NormalizeFacts.

Import Spec.
Local Open Scope R_scope.
Local Open Scope string_scope.

Lemma ratio_bounds (a d : R) : 0 <= a <= d -> 0 < d -> 0 <= a / d <= 1.
Proof.
  intros [Ha Had] Hd. pose proof (Rinv_0_lt_compat d Hd) as Hinv.
  unfold Rdiv. split.
  - apply Rmult_le_pos; lra.
  - replace 1 with (d * / d) by (apply Rinv_r; lra).
    apply Rmult_le_compat_r; lra.
Qed.

Lemma ratio_le (a b d : R) : a <= b -> 0 < d -> a / d <= b / d.
Proof.
  intros Hab Hd. pose proof (Rinv_0_lt_compat d Hd) as Hinv.
  unfold Rdiv. apply Rmult_le_compat_r; lra.
Qed.

(** [normalizeScore] on a proper range, in closed form. *)
Lemma normalizeScore_xreal (value lo hi : R) :
  lo <> hi ->
  normalizeScore (Fin value) (Fin lo) (Fin hi)
  = Fin ((Rmax lo (Rmin hi value) - lo) / (hi - lo) * 100).
Proof.
  intros Hne. unfold normalizeScore. cbn. literals.
  destruct (Req_dec_T (hi + - lo) 0) as [E|_]; [lra|]. reflexivity.
Qed.

(** X1.  In exact arithmetic, on a range [lo < hi], [normalizeScore]
    returns a finite number in [0,100]: 0 for a value at or below [lo],
    100 at or above [hi], and the linear interpolation
    [(value - lo) / (hi - lo) * 100] in between.  In binary64 this stops
    where [max - min] overflows: on the range from [-2^1023] to [2^1023]
    the value [2^1023] gives [NaN] and the value 0 gives 0. *)
Theorem X1_normalizeScore_range (value lo hi : R) :
  lo < hi ->
  (exists r,
     normalizeScore (Fin value) (Fin lo) (Fin hi) = Fin r /\
     0 <= r <= 100 /\
     (value <= lo -> r = 0) /\
     (hi <= value -> r = 100) /\
     (lo <= value <= hi -> r = (value - lo) / (hi - lo) * 100)) /\
  normalizeScore F64.huge (PrimFloat.opp F64.huge) F64.huge
  = PrimFloat.nan /\
  normalizeScore (lit 0) (PrimFloat.opp F64.huge) F64.huge = lit 0.
Proof.
  intros Hlt. split; [|split; vm_compute; reflexivity].
  rewrite normalizeScore_xreal by lra.
  eexists; split; [reflexivity|].
  assert (Hc : lo <= Rmax lo (Rmin hi value) <= hi).
  { unfold Rmax, Rmin. decide_R; lra. }
  pose proof (ratio_bounds (Rmax lo (Rmin hi value) - lo) (hi - lo)) as Hb.
  repeat split.
  - apply Rmult_le_pos; [apply Hb|]; lra.
  - replace 100 with (1 * 100) at 2 by lra.
    apply Rmult_le_compat_r; [|apply Hb]; lra.
  - intros Hv. replace (Rmax lo (Rmin hi value)) with lo
      by (unfold Rmax, Rmin; decide_R; lra).
    unfold Rdiv. ring.
  - intros Hv. replace (Rmax lo (Rmin hi value)) with hi
      by (unfold Rmax, Rmin; decide_R; lra).
    field. lra.
  - intros Hv. replace (Rmax lo (Rmin hi value)) with value
      by (unfold Rmax, Rmin; decide_R; lra).
    reflexivity.
Qed.


(** X3.  On an inverted range, [max < min], every value is clamped to
    [min] and [normalizeScore] returns 0, whatever the value. *)
Theorem X3_normalizeScore_inverted_range (value lo hi : R) :
  hi < lo ->
  normalizeScore (Fin value) (Fin lo) (Fin hi) = Fin 0.
Proof.
  intros Hlt. rewrite normalizeScore_xreal by lra. f_equal.
  replace (Rmax lo (Rmin hi value)) with lo
    by (unfold Rmax, Rmin; decide_R; lra).
  unfold Rdiv. ring.
Qed.

(** X4.  A value recorded at the clock reading itself is returned as it
    is, for every half-life other than zero; with a half-life of zero the
    exponent is 0/0 and the result is [NaN]. *)
Theorem X4_applyTimeDecay_age_zero (now value h : R) :
  h <> 0 ->
  applyTimeDecay (Fin now) (Fin value) (Fin now) (Fin h) = Fin value /\
  applyTimeDecay (Fin now) (Fin value) (Fin now) (Fin 0) = NaN.
Proof.
  intros Hh. split.
  - rewrite applyTimeDecay_xreal by exact Hh. f_equal.
    replace ((now - now) / 86400000 / h) with 0 by (unfold Rdiv; ring).
    rewrite Rpower_O by lra. ring.
  - unfold applyTimeDecay. cbn. literals.
    destruct (Req_dec_T (1000 * 60 * 60 * 24) 0) as [E|_]; [lra|].
    cbn. destruct (Req_dec_T 0 0) as [_|N]; [|lra].
    replace ((now + - now) / (1000 * 60 * 60 * 24)) with 0
      by (unfold Rdiv; ring).
    unfold XReal.sgn. decide_R; reflexivity.
Qed.

(** X5.  In exact arithmetic, for a half-life [h > 0] and a value
    [v > 0], a timestamp in the past gives a decayed value in (0, v], and
    a timestamp in the future gives more than [v]: the function does not
    reject future timestamps, it amplifies.  In binary64 the lower bound
    is reached: with a half-life of one day a value of 1 is exactly 0
    after 1100 days. *)
Theorem X5_applyTimeDecay_bounds (now v h t : R) :
  0 < h -> 0 < v ->
  (exists d,
     applyTimeDecay (Fin now) (Fin v) (Fin t) (Fin h) = Fin d /\
     0 < d /\
     (t <= now -> d <= v) /\
     (now < t -> v < d)) /\
  (forall approx,
     applyTimeDecay (JM := float_math approx)
       (lit 95040000000) (lit 1) (lit 0) (lit 1) = lit 0).
Proof.
  intros Hh Hv. split; [|intros approx; vm_compute; reflexivity].
  rewrite applyTimeDecay_xreal by lra.
  eexists; split; [reflexivity|].
  set (e := (now - t) / 86400000 / h).
  assert (Hln : ln (/ 2) < 0).
  { rewrite ln_Rinv by lra. pose proof ln_lt_2. lra. }
  assert (Hpos : 0 < Rpower (/ 2) e) by apply exp_pos.
  assert (Hinv : 0 < / h) by now apply Rinv_0_lt_compat.
  repeat split.
  - now apply Rmult_lt_0_compat.
  - intros Ht.
    assert (He : 0 <= e).
    { unfold e, Rdiv. apply Rmult_le_pos; [|lra].
      apply Rmult_le_pos; lra. }
    assert (Rpower (/ 2) e <= 1).
    { unfold Rpower. rewrite <- exp_0.
      destruct (Req_dec_T e 0) as [->|Hne].
      - rewrite Rmult_0_l. lra.
      - left. apply exp_increasing. nra. }
    nra.
  - intros Ht.
    assert (He : e < 0).
    { unfold e, Rdiv.
      assert ((now - t) * / 86400000 < 0) by lra. nra. }
    assert (1 < Rpower (/ 2) e).
    { unfold Rpower. rewrite <- exp_0. apply exp_increasing. nra. }
    nra.
Qed.

(** X6.  Decay composes: decaying a value from [t] to [mid], and the
    result from [mid] to [now], is decaying it from [t] to [now]. *)
Theorem X6_applyTimeDecay_composes (now mid t v h : R) :
  h <> 0 ->
  exists d,
    applyTimeDecay (Fin mid) (Fin v) (Fin t) (Fin h) = Fin d /\
    applyTimeDecay (Fin now) (Fin d) (Fin mid) (Fin h)
    = applyTimeDecay (Fin now) (Fin v) (Fin t) (Fin h).
Proof.
  intros Hh. rewrite !applyTimeDecay_xreal by exact Hh.
  eexists; split; [reflexivity|].
  rewrite applyTimeDecay_xreal by exact Hh. f_equal.
  rewrite Rmult_assoc, <- Rpower_plus. f_equal. f_equal. field. exact Hh.
Qed.

End NormalizeFacts.

(* ================================================================== *)
(** * 16. Outlier detection, further properties *)
(* ================================================================== *)

Section OutlierIndices.

Context {num : Type} {JN : JsNumber num} {JM : JsMath num}.

Lemma filter_seq_sorted (f : nat -> bool) (s n : nat) :
  StronglySorted lt (List.filter f (seq s n)).
Proof.
  revert s. induction n as [|n IH]; intros s; cbn; [constructor|].
  destruct (f s); [|apply IH].
  constructor; [apply IH|].
  apply List.Forall_forall. intros i Hi.
  apply filter_In in Hi. destruct Hi as [Hi _].
  apply in_seq in Hi. lia.
Qed.

Lemma filter_seq_bound (f : nat -> bool) (n : nat) :
  Forall (fun i => (i < n)%nat) (List.filter f (seq 0 n)).
Proof.
  apply List.Forall_forall. intros i Hi.
  apply filter_In in Hi. destruct Hi as [Hi _].
  apply in_seq in Hi. lia.
Qed.

(** [detectOutliers] as a filter of the indices, whatever the numbers. *)
Lemma detectOutliers_filter (values : list num) (z : option num) :
  exists test : nat -> bool,
    detectOutliers values z = List.filter test (seq 0 (length values)).
Proof.
  unfold detectOutliers.
  destruct (Nat.ltb_spec (length values) 2) as [Hlt|Hge].
  - exists (fun _ => false).
    induction (seq 0 (length values)) as [|i l IH]; [reflexivity | exact IH].
  - cbv zeta.
    match goal with
    | |- context [fold_left ?f _ _] => set (step := f)
    end.
    eexists.
    match goal with
    | |- fold_left _ (combine _ values) [] = _ =>
        etransitivity; [|apply app_nil_l]
    end.
    eapply (forEach_push _ values 0 [] (lit 0)).
Qed.

(** X7.  Whatever the arithmetic, the result of [detectOutliers] is a
    strictly increasing list of valid indices of the input: no index is
    reported twice and none is out of range. *)
Theorem X7_detectOutliers_indices (values : list num) (z : option num) :
  StronglySorted lt (detectOutliers values z) /\
  Forall (fun i => (i < length values)%nat) (detectOutliers values z) /\
  (length (detectOutliers values z) <= length values)%nat.
Proof.
  destruct (detectOutliers_filter values z) as (test & ->).
  split; [apply filter_seq_sorted|]. split; [apply filter_seq_bound|].
  etransitivity; [apply List.filter_length_le|]. now rewrite length_seq.
Qed.

End OutlierIndices.

Section Samuelson.

Import Spec.
Local Open Scope R_scope.
Local Open Scope string_scope.

Lemma total_app (l1 l2 : list R) : total (l1 ++ l2) = total l1 + total l2.
Proof.
  induction l1 as [|x l1 IH].
  - change (total l2 = 0 + total l2). lra.
  - change (x + total (l1 ++ l2) = x + total l1 + total l2).
    rewrite IH. lra.
Qed.

Lemma total_shift (vs : list R) (m : R) :
  total (map (fun v => v - m) vs) = total vs - INR (length vs) * m.
Proof.
  induction vs as [|x vs IH].
  { change (0 = 0 - 0 * m). lra. }
  change (x - m + total (map (fun v => v - m) vs)
          = x + total vs - INR (S (length vs)) * m).
  rewrite IH, S_INR. lra.
Qed.

(** The square of a sum is at most the length times the sum of squares. *)
Lemma total_square_bound (ds : list R) :
  total ds * total ds
  <= INR (length ds) * total (map (fun d => d * d) ds).
Proof.
  induction ds as [|x ds IH].
  { change (0 * 0 <= 0 * 0). lra. }
  change ((x + total ds) * (x + total ds)
          <= INR (S (length ds))
             * (x * x + total (map (fun d => d * d) ds))).
  rewrite S_INR.
  set (k := INR (length ds)) in *. set (S := total ds) in *.
  set (Q := total (map (fun d => d * d) ds)) in *.
  assert (Hk : 0 <= k) by apply pos_INR.
  assert (HQ : 0 <= Q).
  { unfold Q. clear. induction ds as [|y ds IH].
    - change (0 <= 0). lra.
    - change (0 <= y * y + total (map (fun d => d * d) ds)).
      pose proof (Rle_0_sqr y) as Hsq. unfold Rsqr in Hsq. lra. }
  assert (Hmid : 0 <= k * (x * x) + Q - 2 * x * S).
  { destruct (Req_dec_T k 0) as [Hk0|Hk0].
    - rewrite Hk0 in IH. rewrite Hk0.
      assert (HS : S = 0).
      { assert (HS2 : S * S <= 0) by lra.
        pose proof (Rle_0_sqr S) as Hsq. unfold Rsqr in Hsq.
        destruct (Rmult_integral S S); lra. }
      rewrite HS. lra.
    - assert (Hkpos : 0 < k) by lra.
      apply (Rmult_le_reg_l k); [exact Hkpos|].
      pose proof (Rle_0_sqr (k * x - S)) as Hsq. unfold Rsqr in Hsq.
      replace (k * (k * (x * x) + Q - 2 * x * S))
        with ((k * x - S) * (k * x - S) + (k * Q - S * S)) by ring.
      lra. }
  replace ((k + 1) * (x * x + Q))
    with ((k * (x * x) + Q - 2 * x * S) + (k * Q - S * S)
          + (x + S) * (x + S)) by ring.
  lra.
Qed.

(** Samuelson's inequality: among [n] deviations that sum to zero, the
    square of each is at most [(n - 1) / n] of the sum of squares. *)
Lemma deviation_bound (ds : list R) (i : nat) :
  total ds = 0 -> (i < length ds)%nat ->
  INR (length ds) * (nth i ds 0 * nth i ds 0)
  <= (INR (length ds) - 1) * total (map (fun d => d * d) ds).
Proof.
  intros Hsum Hi.
  destruct (nth_split ds 0 Hi) as (l1 & l2 & Hds & Hl1).
  set (x := nth i ds 0) in *. rewrite Hds in *. clear Hds.
  rewrite total_app in Hsum.
  change (total (x :: l2)) with (x + total l2) in Hsum.
  rewrite map_app, total_app.
  change (total (map (fun d => d * d) (x :: l2)))
    with (x * x + total (map (fun d => d * d) l2)).
  rewrite length_app. cbn [length]. rewrite plus_INR, S_INR.
  pose proof (total_square_bound (l1 ++ l2)) as Hcs.
  rewrite total_app, map_app, total_app, length_app, plus_INR in Hcs.
  set (a := INR (length l1)) in *. set (b := INR (length l2)) in *.
  set (Q1 := total (map (fun d => d * d) l1)) in *.
  set (Q2 := total (map (fun d => d * d) l2)) in *.
  assert (Hrest : total l1 + total l2 = - x) by lra.
  rewrite Hrest in Hcs.
  assert (Ha : 0 <= a) by apply pos_INR.
  assert (Hb : 0 <= b) by apply pos_INR.
  nra.
Qed.

(** No value lies more than [sqrt (n - 1)] standard deviations from the
    mean. *)
Lemma zscore_bound (vs : list R) (i : nat) :
  (2 <= length vs)%nat -> (i < length vs)%nat ->
  (nth i vs 0 - mean vs) * (nth i vs 0 - mean vs)
  <= (INR (length vs) - 1) * (stdDev vs * stdDev vs).
Proof.
  intros Hn Hi.
  assert (Hlen : 0 < INR (length vs)) by (apply lt_0_INR; lia).
  set (m := mean vs).
  pose proof (deviation_bound (map (fun v => v - m) vs) i) as Hd.
  rewrite length_map in Hd.
  assert (Hsum : total (map (fun v => v - m) vs) = 0).
  { rewrite total_shift. unfold m, mean. field. lra. }
  specialize (Hd Hsum Hi).
  assert (Hnth : nth i (map (fun v => v - m) vs) 0 = nth i vs 0 - m).
  { rewrite (nth_indep _ 0 (0 - m)) by (rewrite length_map; exact Hi).
    apply (map_nth (fun v => v - m)). }
  rewrite Hnth, map_map in Hd.
  assert (Hvar : stdDev vs * stdDev vs
                 = total (map (fun v => (v - m) * (v - m)) vs)
                   / INR (length vs)).
  { unfold stdDev. fold m. apply sqrt_sqrt.
    pose proof (total_squares_nonneg vs m).
    apply Rmult_le_pos; [assumption|]. left. now apply Rinv_0_lt_compat. }
  rewrite Hvar.
  set (Q := total (map (fun v => (v - m) * (v - m)) vs)) in *.
  set (d2 := (nth i vs 0 - m) * (nth i vs 0 - m)) in *.
  apply (Rmult_le_reg_l (INR (length vs))); [exact Hlen|].
  replace (INR (length vs) * ((INR (length vs) - 1) * (Q / INR (length vs))))
    with ((INR (length vs) - 1) * Q) by (field; lra).
  exact Hd.
Qed.

(** X8.  In exact arithmetic [detectOutliers] finds nothing when the
    threshold [z >= 0] satisfies [z * z >= n - 1], [n] being the number
    of values: no value of a list lies more than [sqrt (n - 1)]
    population standard deviations from the mean.  With the default
    threshold of 2.5, a list of 7 values or fewer never has an outlier,
    and a list of 8 can have one.  In binary64 a z-score that sits on the
    threshold can fall on either side of it: the two values 0.1 and 0.2
    have z-scores of 1 and the threshold 1 still reports the first. *)
Theorem X8_detectOutliers_needs_enough_values (vs : list R) :
  (forall z, 0 <= z -> INR (length vs) - 1 <= z * z ->
     detectOutliers (map Fin vs) (Some (Fin z)) = []) /\
  ((length vs <= 7)%nat -> detectOutliers (map Fin vs) None = []) /\
  detectOutliers (map Fin [0; 0; 0; 0; 0; 0; 0; 1]) None = [7%nat] /\
  (forall approx,
     detectOutliers (JM := float_math approx)
       [lit 0.1; lit 0.2] (Some (lit 1)) = [0%nat]).
Proof.
  assert (Hgen : forall z, 0 <= z -> INR (length vs) - 1 <= z * z ->
                 detectOutliers (map Fin vs) (Some (Fin z)) = []).
  { intros z Hz Hbound.
    destruct (Nat.lt_ge_cases (length vs) 2) as [Hlt|Hge].
    { unfold detectOutliers. rewrite length_map.
      destruct (Nat.ltb_spec (length vs) 2); [reflexivity | lia]. }
    rewrite detectOutliers_xreal by exact Hge.
    apply filter_none. intros i Hi. apply in_seq in Hi.
    pose proof (sqrt_pos
      (total (map (fun v => (v - mean vs) * (v - mean vs)) vs)
       / INR (length vs))) as Hsd.
    fold (stdDev vs) in Hsd.
    destruct (Req_dec_T (stdDev vs) 0) as [Hzero|Hnz].
    - rewrite (stdDev_zero vs Hge Hzero (nth i vs 0))
        by (apply nth_In; lia).
      rewrite Hzero. xcompute; reflexivity.
    - rewrite zscore_test by lra.
      destruct (Rlt_dec (z * stdDev vs) (Rabs (nth i vs 0 - mean vs)))
        as [Hout|_]; [exfalso | reflexivity].
      pose proof (zscore_bound vs i Hge ltac:(lia)) as Hb.
      set (d := nth i vs 0 - mean vs) in *. set (sd := stdDev vs) in *.
      assert (Hd2 : Rabs d * Rabs d = d * d).
      { unfold Rabs. destruct (Rcase_abs d); ring. }
      assert (Hzs : 0 <= z * sd) by (apply Rmult_le_pos; lra).
      assert (Hsq : (z * sd) * (z * sd) < Rabs d * Rabs d).
      { apply Rmult_le_0_lt_compat; lra. }
      assert (Hsd2 : 0 <= sd * sd) by (apply Rmult_le_pos; lra).
      assert ((INR (length vs) - 1) * (sd * sd) <= (z * z) * (sd * sd)).
      { apply Rmult_le_compat_r; lra. }
      nra. }
  assert (Hdefault : forall ws,
    detectOutliers (map Fin ws) None
    = detectOutliers (map Fin ws) (Some (Fin 2.5))).
  { intros ws.
    change (detectOutliers (map Fin ws) None)
      with (detectOutliers (map Fin ws) (Some (lit 2.5))).
    cbn [lit xreal_number]. literals.
    replace (25 * / 10) with 2.5 by lra. reflexivity. }
  split; [exact Hgen|]. split; [|split].
  - intros Hlen. rewrite Hdefault.
    apply Hgen; [lra|].
    assert (INR (length vs) <= 7).
    { replace 7 with (INR 7) by (cbn; lra). apply le_INR. exact Hlen. }
    lra.
  - rewrite Hdefault. clear Hgen Hdefault.
    set (ws := [0; 0; 0; 0; 0; 0; 0; 1]).
    rewrite detectOutliers_xreal by (cbn; lia).
    assert (Hmean : mean ws = 1 / 8).
    { unfold mean, total, ws. cbn. field. }
    assert (Hvar : total (map (fun v => (v - mean ws) * (v - mean ws)) ws)
                   / INR (length ws) = 7 / 64).
    { rewrite Hmean. unfold total, ws. cbn. field. }
    assert (Hsd : 0.3 < stdDev ws < 0.35).
    { unfold stdDev. rewrite Hvar.
      assert (Hlo : sqrt (0.3 * 0.3) = 0.3) by (apply sqrt_square; lra).
      assert (Hhi : sqrt (0.35 * 0.35) = 0.35) by (apply sqrt_square; lra).
      rewrite <- Hlo, <- Hhi. split; apply sqrt_lt_1; lra. }
    rewrite Hmean. generalize dependent (stdDev ws). intros sd Hsd.
    unfold ws. cbn [length seq List.filter nth].
    rewrite !zscore_test by lra.
    unfold Rabs. decide_R; reflexivity.
  - intros approx. vm_compute. reflexivity.
Qed.

End Samuelson.

Section OutlierInvariance.

Import Spec.
Local Open Scope R_scope.
Local Open Scope string_scope.

Lemma total_affine (vs : list R) (k c : R) :
  total (map (fun v => k * v + c) vs) = k * total vs + INR (length vs) * c.
Proof.
  induction vs as [|x vs IH].
  { change (0 = k * 0 + 0 * c). lra. }
  change (k * x + c + total (map (fun v => k * v + c) vs)
          = k * (x + total vs) + INR (S (length vs)) * c).
  rewrite IH, S_INR. lra.
Qed.

Lemma mean_affine (vs : list R) (k c : R) :
  vs <> [] -> mean (map (fun v => k * v + c) vs) = k * mean vs + c.
Proof.
  intros Hne. unfold mean. rewrite total_affine, length_map.
  assert (INR (length vs) <> 0).
  { apply not_0_INR. destruct vs; [contradiction | discriminate]. }
  field. assumption.
Qed.

Lemma total_scale (f : R -> R) (vs : list R) (k : R) :
  total (map (fun v => k * f v) vs) = k * total (map f vs).
Proof.
  induction vs as [|x vs IH].
  { change (0 = k * 0). lra. }
  change (k * f x + total (map (fun v => k * f v) vs)
          = k * (f x + total (map f vs))).
  rewrite IH. lra.
Qed.

Lemma stdDev_affine (vs : list R) (k c : R) :
  vs <> [] -> 0 < k ->
  stdDev (map (fun v => k * v + c) vs) = k * stdDev vs.
Proof.
  intros Hne Hk. unfold stdDev.
  rewrite (mean_affine vs k c Hne), map_map, length_map.
  assert (Hext :
    map (fun v => (k * v + c - (k * mean vs + c))
                  * (k * v + c - (k * mean vs + c))) vs
    = map (fun v => (k * k) * ((v - mean vs) * (v - mean vs))) vs).
  { apply map_ext. intros v. ring. }
  rewrite Hext, (total_scale (fun v => (v - mean vs) * (v - mean vs))).
  unfold Rdiv. rewrite Rmult_assoc.
  rewrite sqrt_mult_alt by nra.
  rewrite sqrt_square by lra. reflexivity.
Qed.

(** X9.  [detectOutliers] does not depend on the unit of the values:
    replacing every value [v] by [k * v + c] with [k > 0] gives the same
    indices. *)
Theorem X9_detectOutliers_affine_invariant (vs : list R) (z k c : R) :
  0 < k ->
  detectOutliers (map Fin (map (fun v => k * v + c) vs)) (Some (Fin z))
  = detectOutliers (map Fin vs) (Some (Fin z)).
Proof.
  intros Hk.
  destruct (Nat.lt_ge_cases (length vs) 2) as [Hlt|Hge].
  { unfold detectOutliers. rewrite !length_map.
    destruct (Nat.ltb_spec (length vs) 2); [reflexivity | lia]. }
  assert (Hne : vs <> []) by (destruct vs; [cbn in Hge; lia | discriminate]).
  rewrite !detectOutliers_xreal by (rewrite ?length_map; exact Hge).
  rewrite length_map.
  apply filter_ext_in. intros i Hi. apply in_seq in Hi.
  rewrite (mean_affine vs k c Hne), (stdDev_affine vs k c Hne Hk).
  assert (Hnth : nth i (map (fun v => k * v + c) vs) 0
                 = k * nth i vs 0 + c).
  { rewrite (nth_indep _ 0 (k * 0 + c)) by (rewrite length_map; lia).
    apply (map_nth (fun v => k * v + c)). }
  rewrite Hnth.
  pose proof (sqrt_pos
    (total (map (fun v => (v - mean vs) * (v - mean vs)) vs)
     / INR (length vs))) as Hsd.
  fold (stdDev vs) in Hsd.
  destruct (Req_dec_T (stdDev vs) 0) as [Hzero|Hnz].
  - rewrite (stdDev_zero vs Hge Hzero (nth i vs 0)) by (apply nth_In; lia).
    rewrite Hzero, Rmult_0_r. xcompute; reflexivity.
  - rewrite !zscore_test by nra.
    replace (k * nth i vs 0 + c - (k * mean vs + c))
      with (k * (nth i vs 0 - mean vs)) by ring.
    rewrite Rabs_mult, (Rabs_pos_eq k) by lra.
    destruct (Rlt_dec (z * (k * stdDev vs))
                (k * Rabs (nth i vs 0 - mean vs))) as [H1|H1];
      destruct (Rlt_dec (z * stdDev vs) (Rabs (nth i vs 0 - mean vs)))
        as [H2|H2]; try reflexivity; exfalso; nra.
Qed.

End OutlierInvariance.

(* ================================================================== *)
(** * 17. Confidence and category scores, further properties *)
(* ================================================================== *)

Section ScoreFacts.

Import Spec.
Local Open Scope R_scope.
Local Open Scope string_scope.

(** X10.  For [idealReviews > 0] the confidence level never exceeds 86,
    the placeholder factors capping it; it is 86 for a gold verification
    with at least [idealReviews] ratings. *)
Theorem X10_confidence_level_ceiling
    (c : IReputationDataComponents xreal) (cfg : ConfidenceConfig xreal)
    (i : R) :
  idealReviews cfg = Fin i -> 0 < i -> rating_count_finite c ->
  exists l,
    ConfidenceResult.level (calculateConfidence c cfg) = Fin l /\
    l <= 86 /\
    (stated_level c = Some "gold" -> i <= reviews c -> l = 86).
Proof.
  intros Hi Hpos Hrc.
  rewrite (calculateConfidence_xreal c cfg i Hi Hpos Hrc). cbn.
  eexists; split; [reflexivity|].
  pose proof (level_points_range (stated_level c)) as Hl.
  assert (Hs : sample_size c i <= 100).
  { unfold sample_size. apply Rmin_l. }
  split.
  - rewrite <- (Rround_IZR 86). apply Rround_le. unfold blend. lra.
  - intros Hgold Hmany. rewrite Hgold.
    assert (Hfull : sample_size c i = 100).
    { unfold sample_size. apply Rmin_left.
      assert (1 <= reviews c / i).
      { apply (Rmult_le_reg_r i); [exact Hpos|].
        unfold Rdiv. rewrite Rmult_assoc, Rinv_l; lra. }
      lra. }
    rewrite Hfull. apply (Rround_eq 86). unfold blend, level_points. cbn.
    lra.
Qed.

End ScoreFacts.

Section Agreement.

Context {num : Type} {JN : JsNumber num}.

Local Open Scope string_scope.

(** X11.  Whatever the arithmetic, the [verification_level] factor of
    [calculateConfidence] is the verification score of the bundle: the
    two [switch] statements agree on every level, stated or not. *)
Theorem X11_verification_factor_is_score
    (c : IReputationDataComponents num) (cfg : ConfidenceConfig num) :
  get_prop "verification_level"
    (ConfidenceResult.factors (calculateConfidence c cfg))
  = Some (calculateVerificationScore c).
Proof.
  unfold calculateConfidence, calculateVerificationScore.
  destruct (fold_left _ _ _) as [oc ws]. cbn.
  destruct (verificationDetails c) as [[[l|] va ms]|]; cbn;
    try reflexivity.
  destruct (String.eqb_spec l "") as [->|_]; [reflexivity|].
  reflexivity.
Qed.

End Agreement.

Section CategoryFacts.

Import Spec.
Local Open Scope R_scope.
Local Open Scope string_scope.

(** X12.  The feedback score rises with the average rating, from 0 at a
    rating of 1 to 100 at 5, for every rating other than zero; a rating
    of exactly 0 is read as no rating and scores 50, more than any rating
    strictly between 0 and 3. *)
Theorem X12_feedback_score_and_zero_rating
    (c : IReputationDataComponents xreal) (r s : R) :
  r <> 0 -> s <> 0 -> r <= s ->
  exists x y,
    calculateFeedbackScore (withRating (Some (Fin r)) c) = Fin x /\
    calculateFeedbackScore (withRating (Some (Fin s)) c) = Fin y /\
    x = (r - 1) * 25 /\ x <= y /\
    (0 < r < 3 -> x < 50) /\
    calculateFeedbackScore (withRating (Some (Fin 0)) c) = Fin 50 /\
    calculateFeedbackScore (withRating None c) = Fin 50.
Proof.
  intros Hr Hs Hrs.
  unfold calculateFeedbackScore, withRating, if_truthy. cbn. literals.
  destruct (Req_dec_T r 0) as [E|_]; [contradiction|].
  destruct (Req_dec_T s 0) as [E|_]; [contradiction|].
  destruct (Req_dec_T 0 0) as [_|N]; [|lra].
  cbn. destruct (Req_dec_T 4 0) as [E|_]; [lra|]. cbn.
  eexists _, _. split; [reflexivity|]. split; [reflexivity|].
  repeat split; try lra.
Qed.

(** The usage score of non-negative counts, in closed form. *)
Lemma calculateUsageScore_xreal
    (c : IReputationDataComponents xreal) (q k d : R) :
  0 <= q -> 0 <= k -> 0 <= d ->
  calculateUsageScore
    (withUsage (Some (Fin q)) (Some (Fin k)) (Some (Fin d)) c)
  = Fin (Rmin 100 (q / 1000 * 100) * 0.3 + Rmin 100 (k / 100 * 100) * 0.4
         + Rmin 100 (d / 30 * 100) * 0.3).
Proof.
  intros Hq Hk Hd.
  unfold calculateUsageScore, withUsage, if_truthy. cbn. literals.
  destruct (Req_dec_T q 0) as [->|_], (Req_dec_T k 0) as [->|_],
    (Req_dec_T d 0) as [->|_]; cbn;
    repeat match goal with
           | |- context [Req_dec_T ?a 0] =>
               destruct (Req_dec_T a 0) as [E|_]; [lra|]; cbn
           end;
    f_equal; unfold Rmin; decide_R; lra.
Qed.

(** X13.  For non-negative counts the usage score lies in [0,100], never
    decreases when a count increases, and is 100 from 1000 requests, 100
    clients and 30 days on.  A category with three zero counts scores 0,
    an absent category 50. *)
Theorem X13_usage_score_saturates
    (c : IReputationDataComponents xreal) (q k d q' k' d' : R) :
  0 <= q <= q' -> 0 <= k <= k' -> 0 <= d <= d' ->
  exists x y,
    calculateUsageScore
      (withUsage (Some (Fin q)) (Some (Fin k)) (Some (Fin d)) c) = Fin x /\
    calculateUsageScore
      (withUsage (Some (Fin q')) (Some (Fin k')) (Some (Fin d')) c) = Fin y /\
    0 <= x <= y /\ y <= 100 /\
    (1000 <= q -> 100 <= k -> 30 <= d -> x = 100) /\
    calculateUsageScore
      (withUsage (Some (Fin 0)) (Some (Fin 0)) (Some (Fin 0)) c) = Fin 0 /\
    calculateUsageScore (noData None) = Fin 50.
Proof.
  intros Hq Hk Hd.
  rewrite !calculateUsageScore_xreal by lra.
  eexists _, _. split; [reflexivity|]. split; [reflexivity|].
  assert (Hterm : forall n n' dv : R, 0 < dv -> 0 <= n <= n' ->
            0 <= Rmin 100 (n / dv * 100) <= Rmin 100 (n' / dv * 100)
            /\ Rmin 100 (n' / dv * 100) <= 100
            /\ (dv <= n -> Rmin 100 (n / dv * 100) = 100)).
  { intros n n' dv Hdv Hn.
    pose proof (ratio_le n n' dv ltac:(lra) Hdv) as Hle.
    pose proof (ratio_le 0 n dv ltac:(lra) Hdv) as H0.
    replace (0 / dv) with 0 in H0 by (unfold Rdiv; ring).
    split; [|split].
    - unfold Rmin. decide_R; lra.
    - apply Rmin_l.
    - intros Hbig. apply Rmin_left.
      pose proof (ratio_le dv n dv Hbig Hdv) as H1.
      replace (dv / dv) with 1 in H1 by (field; lra). lra. }
  destruct (Hterm q q' 1000 ltac:(lra) Hq) as (Hq1 & Hq2 & Hq3).
  destruct (Hterm k k' 100 ltac:(lra) Hk) as (Hk1 & Hk2 & Hk3).
  destruct (Hterm d d' 30 ltac:(lra) Hd) as (Hd1 & Hd2 & Hd3).
  split; [lra|]. split; [lra|]. split.
  { intros H1 H2 H3. rewrite (Hq3 H1), (Hk3 H2), (Hd3 H3). lra. }
  split.
  - f_equal. replace (0 / 1000 * 100) with 0 by lra.
    replace (0 / 100 * 100) with 0 by lra.
    replace (0 / 30 * 100) with 0 by lra.
    unfold Rmin. decide_R; lra.
  - cbn. literals. reflexivity.
Qed.

End CategoryFacts.

(* ================================================================== *)
(** * 18. The weighted algorithm, further properties *)
(* ================================================================== *)

Section Independence.

Context {num : Type} {JN : JsNumber num}.

Local Open Scope string_scope.

(** X14.  The score of the weighted algorithm does not depend on
    [timeDecayDays], and only its [lastUpdated] stamp depends on the
    clock; the transaction count, the verification date and methods, the
    rating distribution, the review count, the consistency score and the
    custom metrics have no influence either. *)
Theorem X14_score_ignores_decay_clock_and_unread_fields
    (w : Weights num) (decay decay' reviews : num)
    (now now' sid : string) (c : IReputationDataComponents num) :
  weightedScore (mkConfig w decay reviews) now sid c
  = stampedAt now
      (weightedScore (mkConfig w decay' reviews) now' sid (readFields c)).
Proof.
  destruct c as [[[u t e st]|] [[l va ms]|] [[r n dist k]|] [[q cl d cs]|] cm];
    reflexivity.
Qed.

End Independence.

Section Monotone.

Import Spec.
Local Open Scope R_scope.
Local Open Scope string_scope.



End Monotone.

(* ================================================================== *)
(** * 19. The in-memory storage, further properties *)
(* ================================================================== *)

Section StorageInvariants.

Context {num : Type}.

Implicit Types (this : LocalReputationStorage num)
               (score : IReputationScore num)
               (scores : list (IReputationScore num)).

(** The whole history kept for a server. *)
Lemma history_limit_zero_any this (sid : string) :
  getReputationHistory this sid (Some 0%Z)
  = default [] (history this !! sid).
Proof.
  unfold getReputationHistory, array_slice. cbn.
  now destruct (length _).
Qed.

Lemma history_saveAll this scores (sid : string) :
  default [] (history (saveAll this scores) !! sid)
  = default [] (history this !! sid) ++ savedFor sid scores.
Proof.
  unfold saveAll. revert this.
  induction scores as [|s scores IH]; intros this; cbn [fold_left].
  - unfold savedFor. cbn. now rewrite app_nil_r.
  - rewrite IH. unfold savedFor. cbn [List.filter].
    unfold saveReputationScore. cbn [history].
    destruct (String.eqb_spec (serverId s) sid) as [->|Hne].
    + rewrite lookup_insert_eq. cbn [default]. unfold Datatypes.id.
      now rewrite <- app_assoc.
    + rewrite lookup_insert_ne by exact Hne. reflexivity.
Qed.

Lemma storage_saveAll this scores (sid : string) :
  getReputationScore (saveAll this scores) sid
  = match last (savedFor sid scores) with
    | Some s => Some s
    | None => getReputationScore this sid
    end.
Proof.
  unfold saveAll. revert this.
  induction scores as [|s scores IH]; intros this; cbn [fold_left].
  - reflexivity.
  - rewrite IH. unfold savedFor. cbn [List.filter].
    destruct (String.eqb_spec (serverId s) sid) as [<-|Hne].
    + rewrite last_cons, save_then_get.
      now destruct (last _).
    + rewrite save_then_get_other by congruence. reflexivity.
Qed.

(** A save appends the score to the history of its server. *)
Lemma save_grows_history this score :
  getReputationHistory (saveReputationScore this score) (serverId score)
    (Some 0%Z)
  = getReputationHistory this (serverId score) (Some 0%Z) ++ [score].
Proof.
  rewrite !history_limit_zero_any.
  unfold saveReputationScore. cbn [history].
  rewrite lookup_insert_eq. reflexivity.
Qed.

(** The score just saved is the newest entry of the history read with a
    limit of at least one. *)
Lemma save_newest this score (limit : Z) :
  (1 <= limit)%Z ->
  last (getReputationHistory (saveReputationScore this score)
          (serverId score) (Some limit)) = Some score.
Proof.
  intros Hlimit.
  pose proof (save_grows_history this score) as Hgrow.
  rewrite !history_limit_zero_any in Hgrow.
  unfold getReputationHistory. rewrite Hgrow. cbn [default].
  unfold Datatypes.id, array_slice.
  destruct (Z.ltb_spec (- limit) 0) as [_|Hge]; [|lia].
  rewrite length_app. cbn [length].
  rewrite drop_app_le by lia.
  apply last_snoc.
Qed.

(** X16.  After any sequence of saves into a new storage, for any
    servers, the current score of a server is the last score saved for
    it and its history is the scores saved for it, in the order of the
    saves; a limit of at least one keeps the most recent [limit] of
    them. *)
Theorem X16_storage_mirrors_saves scores (sid : string) (limit : Z) :
  (1 <= limit)%Z ->
  let store := saveAll newLocalReputationStorage scores in
  let saved := savedFor sid scores in
  getReputationScore store sid = last saved /\
  getReputationHistory store sid (Some 0%Z) = saved /\
  getReputationHistory store sid (Some limit)
  = drop (length saved - Z.to_nat limit) saved /\
  (length (getReputationHistory store sid (Some limit))
   <= Z.to_nat limit)%nat /\
  (Forall (fun s => serverId s <> sid) scores ->
   getReputationScore store sid = None /\
   getReputationHistory store sid (Some limit) = []).
Proof.
  intros Hlimit store saved.
  assert (Hh : default [] (history store !! sid) = saved).
  { unfold store. rewrite history_saveAll.
    cbn [newLocalReputationStorage history]. now rewrite lookup_empty. }
  assert (Hs : getReputationScore store sid = last saved).
  { unfold store. rewrite storage_saveAll. fold saved.
    destruct (last saved); [reflexivity|].
    unfold getReputationScore. cbn. apply lookup_empty. }
  assert (Hl : getReputationHistory store sid (Some limit)
               = drop (length saved - Z.to_nat limit) saved).
  { unfold getReputationHistory. rewrite Hh. cbn [default].
    unfold Datatypes.id, array_slice.
    destruct (Z.ltb_spec (- limit) 0) as [_|Hge]; [|lia].
    f_equal. lia. }
  split; [exact Hs|]. split.
  { rewrite history_limit_zero_any. exact Hh. }
  split; [exact Hl|]. split.
  { rewrite Hl, length_drop. lia. }
  intros Hnone.
  assert (Hempty : saved = []).
  { unfold saved, savedFor. clear -Hnone.
    induction Hnone as [|s l Hs _ IH]; [reflexivity|].
    cbn [List.filter].
    destruct (String.eqb_spec (serverId s) sid); [contradiction | exact IH]. }
  rewrite Hs, Hl, Hempty. split; reflexivity.
Qed.

(** X17.  What [limit] does, for every integer: from 1 on it keeps the
    most recent [limit] scores, 0 keeps them all, and a negative limit
    [-k] drops the oldest [k] scores instead; the result is always a
    tail of the whole history. *)
Theorem X17_history_limit this (sid : string) (limit : Z) :
  let whole := getReputationHistory this sid (Some 0%Z) in
  let result := getReputationHistory this sid (Some limit) in
  ((1 <= limit)%Z ->
   result = drop (length whole - Z.to_nat limit) whole /\
   length result = Nat.min (length whole) (Z.to_nat limit)) /\
  ((limit < 0)%Z ->
   result = drop (Z.to_nat (- limit)) whole /\
   length result = (length whole - Z.to_nat (- limit))%nat) /\
  (exists k, result = drop k whole) /\
  getReputationHistory this sid None
  = drop (length whole - 10) whole.
Proof.
  intros whole result.
  assert (Hw : whole = default [] (history this !! sid))
    by apply history_limit_zero_any.
  assert (Hr : result = array_slice (- limit) whole).
  { unfold result, getReputationHistory. now rewrite <- Hw. }
  assert (Hpos : (1 <= limit)%Z ->
                 result = drop (length whole - Z.to_nat limit) whole).
  { intros H. rewrite Hr. unfold array_slice.
    destruct (Z.ltb_spec (- limit) 0) as [_|Hge]; [|lia]. f_equal. lia. }
  assert (Hneg : (limit < 0)%Z ->
                 result = drop (Z.to_nat (- limit)) whole).
  { intros H. rewrite Hr. unfold array_slice.
    destruct (Z.ltb_spec (- limit) 0) as [Hlt|_]; [lia|].
    destruct (Z.le_ge_cases (- limit) (Z.of_nat (length whole))) as [Hle|Hge].
    - rewrite Z.min_l by exact Hle. reflexivity.
    - rewrite Z.min_r by exact Hge. rewrite Nat2Z.id.
      rewrite !drop_ge; [reflexivity | lia | lia]. }
  split; [|split; [|split]].
  - intros H. split; [exact (Hpos H)|].
    rewrite (Hpos H), length_drop. lia.
  - intros H. split; [exact (Hneg H)|].
    rewrite (Hneg H), length_drop. reflexivity.
  - destruct (Z.lt_trichotomy limit 0) as [H|[->|H]].
    + eexists. exact (Hneg H).
    + exists 0%nat. reflexivity.
    + eexists. apply Hpos. lia.
  - unfold getReputationHistory. rewrite <- Hw. cbn [default].
    unfold array_slice.
    change (Z.opp 10 <? 0)%Z with true. cbv iota. f_equal. lia.
Qed.

(** X18.  A save makes the score the current one of its server and the
    newest entry of that server's history, which grows by this one entry;
    the current score and the history of every other server stay as they
    were. *)
Theorem X18_save_touches_one_server this score :
  let store := saveReputationScore this score in
  let sid := serverId score in
  getReputationScore store sid = Some score /\
  getReputationHistory store sid (Some 0%Z)
  = getReputationHistory this sid (Some 0%Z) ++ [score] /\
  (forall limit, (1 <= limit)%Z ->
     last (getReputationHistory store sid (Some limit)) = Some score) /\
  (forall other limit, other <> sid ->
     getReputationScore store other = getReputationScore this other /\
     getReputationHistory store other limit
     = getReputationHistory this other limit).
Proof.
  intros store sid.
  split; [apply save_then_get|].
  split; [apply save_grows_history|].
  split; [intros limit; apply save_newest|].
  intros other limit Hne. split.
  - now apply save_then_get_other.
  - unfold getReputationHistory, store, saveReputationScore.
    cbn [history]. fold sid.
    rewrite lookup_insert_ne by congruence. reflexivity.
Qed.

End StorageInvariants.

(* ================================================================== *)
(** * 20. The reputation client *)
(* ================================================================== *)

Section DictFacts.

Context {A : Type}.

Implicit Types (o : Dict A) (k : string).

Lemma get_set_prop_eq k (v : A) o : get_prop k (set_prop k v o) = Some v.
Proof.
  induction o as [|[k' v'] o IH]; cbn.
  - now rewrite String.eqb_refl.
  - destruct (String.eqb k' k) eqn:E; cbn; rewrite E; [reflexivity | exact IH].
Qed.

Lemma get_set_prop_ne k k' (v : A) o :
  k <> k' -> get_prop k' (set_prop k v o) = get_prop k' o.
Proof.
  intros Hne. induction o as [|[k'' v'] o IH]; cbn.
  - destruct (String.eqb_spec k k'); [contradiction | reflexivity].
  - destruct (String.eqb_spec k'' k) as [->|Hk]; cbn.
    + destruct (String.eqb_spec k k'); [contradiction | reflexivity].
    + destruct (String.eqb k'' k'); [reflexivity | exact IH].
Qed.

Lemma get_prop_None k o : get_prop k o = None <-> ~ In k (map fst o).
Proof.
  induction o as [|[k' v'] o IH]; cbn.
  - tauto.
  - destruct (String.eqb_spec k' k) as [->|Hk].
    + split; [discriminate | tauto].
    + rewrite IH. tauto.
Qed.

Lemma keys_set_prop k (v : A) o :
  map fst (set_prop k v o)
  = match get_prop k o with
    | Some _ => map fst o
    | None => map fst o ++ [k]
    end.
Proof.
  induction o as [|[k' v'] o IH]; cbn.
  - reflexivity.
  - destruct (String.eqb_spec k' k) as [->|Hk]; cbn.
    + reflexivity.
    + rewrite IH. now destruct (get_prop k o).
Qed.

End DictFacts.

Section Registry.

Context {S num : Type} {JN : JsNumber num} {ST : IReputationStorage S num}.

Import ReputationClient.

Implicit Types (st : S) (algs : list (IReputationAlgorithm num))
               (a : IReputationAlgorithm num) (k : string).

Lemma registered_snoc st algs a :
  registered st (algs ++ [a]) = registerAlgorithm (registered st algs) a.
Proof.
  unfold registered. now rewrite fold_left_app.
Qed.

Lemma registered_storage st algs : storage (registered st algs) = st.
Proof.
  induction algs as [|a algs IH] using rev_ind; [reflexivity|].
  rewrite registered_snoc. exact IH.
Qed.

(** Every entry of the registry sits under the identifier of its
    algorithm. *)
Lemma registered_keys st algs :
  map fst (algorithms (registered st algs)) = listedIds (registered st algs).
Proof.
  unfold listedIds, listAlgorithms. rewrite !map_map. cbn.
  induction algs as [|a algs IH] using rev_ind; [reflexivity|].
  rewrite registered_snoc. unfold registerAlgorithm. cbn [algorithms].
  revert IH. generalize (algorithms (registered st algs)) as o.
  induction o as [|[k' v'] o IHo]; cbn; intros IH.
  - reflexivity.
  - injection IH as Hk Ho.
    destruct (String.eqb_spec k' (id a)) as [E|_]; cbn.
    + now rewrite Ho, E.
    + now rewrite Hk, (IHo Ho).
Qed.

Lemma registered_get st algs k :
  getAlgorithm (registered st algs) k
  = last (List.filter (fun b => String.eqb (id b) k) algs).
Proof.
  induction algs as [|a algs IH] using rev_ind; [reflexivity|].
  rewrite registered_snoc, List.filter_app. cbn [List.filter].
  unfold getAlgorithm, registerAlgorithm in *. cbn [algorithms].
  destruct (String.eqb_spec (id a) k) as [<-|Hne].
  - rewrite get_set_prop_eq. now rewrite last_snoc.
  - rewrite get_set_prop_ne by exact Hne. now rewrite app_nil_r.
Qed.

Lemma registered_ids st algs k :
  In k (listedIds (registered st algs)) <-> In k (map id algs).
Proof.
  induction algs as [|a algs IH] using rev_ind; [reflexivity|].
  rewrite <- registered_keys, registered_snoc in *.
  unfold registerAlgorithm. cbn [algorithms].
  rewrite keys_set_prop, map_app, List.in_app_iff. cbn [map In].
  destruct (get_prop (id a) (algorithms (registered st algs))) eqn:E.
  - rewrite IH. split; [tauto|]. intros [H|[<-|[]]]; [exact H|].
    apply IH. destruct (In_dec string_dec (id a)
      (map fst (algorithms (registered st algs)))) as [Hin|Hout];
      [exact Hin|].
    apply get_prop_None in Hout. congruence.
  - rewrite List.in_app_iff, IH. cbn [In]. tauto.
Qed.

(** X19.  Registering an algorithm makes it the one found under its
    identifier and leaves every other identifier as it was; after any
    sequence of registrations on a new client an identifier yields the
    algorithm registered last under it, and nothing when none was. *)
Theorem X19_register_then_get st algs a :
  let client := registered st algs in
  getAlgorithm (registerAlgorithm client a) (id a) = Some a /\
  (forall k, k <> id a ->
     getAlgorithm (registerAlgorithm client a) k = getAlgorithm client k) /\
  (forall k, getAlgorithm client k
             = last (List.filter (fun b => String.eqb (id b) k) algs)) /\
  (forall k, getAlgorithm client k = None <-> ~ In k (map id algs)).
Proof.
  intros client. split; [|split; [|split]].
  - apply get_set_prop_eq.
  - intros k Hne. apply get_set_prop_ne. congruence.
  - intros k. apply registered_get.
  - intros k. unfold getAlgorithm. rewrite get_prop_None.
    unfold client. rewrite registered_keys, registered_ids. reflexivity.
Qed.

(** X20.  [listAlgorithms] never reports an identifier twice: it reports
    exactly the identifiers registered, and registering an identifier
    again replaces the algorithm without adding a line. *)
Theorem X20_listAlgorithms_distinct st algs a :
  let client := registered st algs in
  NoDup (listedIds client) /\
  (forall k, In k (listedIds client) <-> In k (map id algs)) /\
  (length (listAlgorithms client) <= length algs)%nat /\
  (In (id a) (map id algs) ->
   listedIds (registerAlgorithm client a) = listedIds client) /\
  (~ In (id a) (map id algs) ->
   listedIds (registerAlgorithm client a) = listedIds client ++ [id a]).
Proof.
  intros client.
  assert (Hstep : forall algs a,
    listedIds (registerAlgorithm (registered st algs) a)
    = match getAlgorithm (registered st algs) (id a) with
      | Some _ => listedIds (registered st algs)
      | None => listedIds (registered st algs) ++ [id a]
      end).
  { intros algs' a'. rewrite <- registered_snoc, <- !registered_keys.
    rewrite registered_snoc. unfold registerAlgorithm. cbn [algorithms].
    apply keys_set_prop. }
  assert (Hnone : forall algs k,
    getAlgorithm (registered st algs) k = None <-> ~ In k (map id algs)).
  { intros algs' k. unfold getAlgorithm. rewrite get_prop_None.
    rewrite registered_keys, registered_ids. reflexivity. }
  assert (Hnodup : forall algs, NoDup (listedIds (registered st algs))).
  { intros algs'. induction algs' as [|b algs' IH] using rev_ind.
    - constructor.
    - rewrite registered_snoc, Hstep.
      destruct (getAlgorithm (registered st algs') (id b)) eqn:E;
        [exact IH|].
      apply NoDup_app. split; [exact IH|]. split.
      + intros x Hx Hb. apply list_elem_of_singleton in Hb. subst x.
        apply Hnone in E. apply E.
        apply (proj1 (registered_ids st algs' (id b))).
        now apply list_elem_of_In.
      + apply NoDup_singleton. }
  assert (Hlen : forall algs,
    (length (listedIds (registered st algs)) <= length algs)%nat).
  { intros algs'. induction algs' as [|b algs' IH] using rev_ind.
    - cbn. lia.
    - rewrite registered_snoc, Hstep, length_app. cbn [length].
      destruct (getAlgorithm (registered st algs') (id b));
        rewrite ?length_app; cbn [length]; lia. }
  split; [apply Hnodup|]. split; [apply registered_ids|]. split.
  { specialize (Hlen algs). unfold listedIds in Hlen.
    rewrite length_map in Hlen. exact Hlen. }
  split.
  - intros Hin. unfold client. rewrite Hstep.
    destruct (getAlgorithm (registered st algs) (id a)) eqn:E;
      [reflexivity|].
    apply Hnone in E. contradiction.
  - intros Hout. unfold client. rewrite Hstep.
    apply Hnone in Hout. now rewrite Hout.
Qed.

Local Open Scope string_scope.

(** X21.  Asking for a score with an identifier that was never
    registered throws "Algorithm with ID ... not found" and leaves the
    client as it was: no data is read and nothing is saved. *)
Theorem X21_unknown_algorithm_throws
    st algs (t_data t_score sid aid : string) :
  ~ In aid (map id algs) ->
  calculateReputationScore (registered st algs) t_data t_score sid aid
  = (registered st algs,
     Thrown ("Algorithm with ID " ++ aid ++ " not found")).
Proof.
  intros Hout. unfold calculateReputationScore.
  assert (E : get_prop aid (algorithms (registered st algs)) = None).
  { apply get_prop_None. rewrite registered_keys, registered_ids.
    exact Hout. }
  now rewrite E.
Qed.

End Registry.

Section ClientOnLocalStorage.

Context {num : Type} {JN : JsNumber num}.

Import ReputationClient.

Local Open Scope string_scope.

(** X22.  With the in-memory storage, a score calculated with a
    registered algorithm is returned and saved: it is the algorithm's
    score of the data client's bundle, it becomes the current score of
    the server it names and the newest entry of that server's history,
    and the registry stays as it was.  The weighted algorithm names the
    server asked for. *)
Theorem X22_calculated_score_is_saved
    (this : t (LocalReputationStorage num) num)
    (alg : IReputationAlgorithm num)
    (t_data t_score sid aid : string) :
  getAlgorithm this aid = Some alg ->
  let score := calculateScore alg t_score sid (getReputationData t_data sid) in
  let this' :=
    (calculateReputationScore this t_data t_score sid aid).1 in
  (calculateReputationScore this t_data t_score sid aid).2 = Returned score /\
  getReputationScore this' (serverId score) = Some score /\
  last (getReputationHistory this' (serverId score) None) = Some score /\
  getReputationHistory this' (serverId score) (Some 0%Z)
  = (getReputationHistory this (serverId score) (Some 0%Z) ++ [score])%list /\
  (forall k, getAlgorithm this' k = getAlgorithm this k) /\
  (forall cfg, alg = createWeightedAlgorithm cfg -> serverId score = sid).
Proof.
  intros Halg score this'.
  unfold getAlgorithm in Halg.
  assert (Hcall : calculateReputationScore this t_data t_score sid aid
    = ({| algorithms := algorithms this;
          storage := saveReputationScore (storage this) score |},
       Returned score)).
  { unfold calculateReputationScore. rewrite Halg. reflexivity. }
  unfold this'. rewrite Hcall. cbn [fst snd].
  unfold getReputationScore, getReputationHistory.
  cbn [storage storage_get storage_history local_storage default].
  split; [reflexivity|].
  split; [apply save_then_get|].
  split; [apply save_newest; lia|].
  split; [apply save_grows_history|].
  split; [reflexivity|].
  intros cfg ->. reflexivity.
Qed.

End ClientOnLocalStorage.

Section ClientScores.

Import Spec ReputationClient.
Local Open Scope R_scope.
Local Open Scope string_scope.

(** X23.  The prototype data client returns the same measurements for
    every server, so with the weighted algorithm every server gets the
    same score.  In binary64, for all weights: categories 95, 100, 95
    and 100, 120 data points, and the overall score
    [Math.round(Math.min(100, Math.max(0, 95.25*performance +
    100*verification + 95*feedback + 100*usage)))], every operation being
    the engine's.  In exact arithmetic the confidence level is 86 for up
    to 24 minimum reviews. *)
Theorem X23_client_scores_every_server_alike
    (this : t (LocalReputationStorage float) float)
    (wp wv wf wu decay m : float)
    (t_data t_score sid aid : string) :
  getAlgorithm this aid
  = Some (createWeightedAlgorithm
            (mkConfig (mkWeights wp wv wf wu) decay m)) ->
  (exists score,
     (calculateReputationScore this t_data t_score sid aid).2
     = Returned score /\
     serverId score = sid /\
     lastUpdated score = t_score /\
     categories score =
       Some [("performance", lit 95); ("verification", lit 100);
             ("feedback", lit 95); ("usage", lit 100)] /\
     dataPoints score = Some (lit 120) /\
     overallScore score =
       Some (round (jsmin (lit 100)
                      (jsmax (lit 0)
                         (lit 95.25 * wp + lit 100 * wv + lit 95 * wf
                          + lit 100 * wu)%js)))) /\
  (forall (w : Weights xreal) (d : xreal) (r : R),
     0 < r <= 24 ->
     confidenceLevel
       (weightedScore (mkConfig w d (Fin r)) t_score sid
          (getReputationData t_data sid))
     = Some (Fin 86)).
Proof.
  intros Halg. unfold getAlgorithm in Halg. split.
  - unfold calculateReputationScore. rewrite Halg.
    cbn [storage_save local_storage snd]. eexists.
    split; [reflexivity|]. split; [reflexivity|]. split; [reflexivity|].
    split; [vm_compute; reflexivity|].
    split; [vm_compute; reflexivity|].
    reflexivity.
  - intros w d r Hr.
    unfold confidenceLevel, weightedScore, createWeightedAlgorithm,
      calculateScore.
    cbn -[calculateConfidence getReputationData]. literals.
    rewrite (calculateConfidence_xreal _ _ (r * 5)); [|reflexivity|lra|].
    + cbn. literals. do 2 f_equal. apply (Rround_eq 86).
      unfold blend, sample_size, reviews. cbn. literals.
      assert (H : 100 <= 120 / (r * 5) * 100).
      { apply (Rmult_le_reg_r (r * 5)); [lra|]. field_simplify; lra. }
      unfold Rmin. decide_R; lra.
    + unfold rating_count_finite, getReputationData. cbn. exact I.
Qed.

End ClientScores.

(* ================================================================== *)
(** * 21. The further properties at concrete inputs *)
(* ================================================================== *)

Section MoreInstances.

Import Spec.
Local Open Scope R_scope.
Local Open Scope string_scope.

(** [X1_normalizeScore_range] at the middle of the range 0..100. *)
Lemma X1_normalizeScore_range_at_half :
  exists r,
    normalizeScore (Fin 50) (Fin 0) (Fin 100) = Fin r /\
    0 <= r <= 100 /\
    (50 <= 0 -> r = 0) /\
    (100 <= 50 -> r = 100) /\
    (0 <= 50 <= 100 -> r = (50 - 0) / (100 - 0) * 100).
Proof.
  exact (proj1 (X1_normalizeScore_range 50 0 100 ltac:(lra))).
Defined.


(** [X3_normalizeScore_inverted_range] with the bounds swapped. *)
Lemma X3_normalizeScore_inverted_range_at_swapped_bounds :
  normalizeScore (Fin 50) (Fin 100) (Fin 0) = Fin 0.
Proof.
  apply (X3_normalizeScore_inverted_range 50 100 0). lra.
Defined.

(** [X4_applyTimeDecay_age_zero] one day after the epoch, half-life 30. *)
Lemma X4_applyTimeDecay_age_zero_at_one_day :
  applyTimeDecay (Fin 86400000) (Fin 80) (Fin 86400000) (Fin 30) = Fin 80 /\
  applyTimeDecay (Fin 86400000) (Fin 80) (Fin 86400000) (Fin 0) = NaN.
Proof.
  apply (X4_applyTimeDecay_age_zero 86400000 80 30). lra.
Defined.

(** [X5_applyTimeDecay_bounds] for a value one day old, half-life 30. *)
Lemma X5_applyTimeDecay_bounds_at_one_day :
  exists d,
    applyTimeDecay (Fin 172800000) (Fin 80) (Fin 86400000) (Fin 30) = Fin d /\
    0 < d /\
    (86400000 <= 172800000 -> d <= 80) /\
    (172800000 < 86400000 -> 80 < d).
Proof.
  exact (proj1 (X5_applyTimeDecay_bounds 172800000 80 30 86400000
                  ltac:(lra) ltac:(lra))).
Defined.

(** [X6_applyTimeDecay_composes] over two consecutive days. *)
Lemma X6_applyTimeDecay_composes_over_two_days :
  exists d,
    applyTimeDecay (Fin 86400000) (Fin 80) (Fin 0) (Fin 30) = Fin d /\
    applyTimeDecay (Fin 172800000) (Fin d) (Fin 86400000) (Fin 30)
    = applyTimeDecay (Fin 172800000) (Fin 80) (Fin 0) (Fin 30).
Proof.
  apply (X6_applyTimeDecay_composes 172800000 86400000 0 80 30). lra.
Defined.

(** [X9_detectOutliers_affine_invariant] on the values of the test-suite,
    read in degrees Celsius and in degrees Fahrenheit. *)
Lemma X9_detectOutliers_affine_invariant_at_fahrenheit :
  detectOutliers
    (map Fin (map (fun v => 1.8 * v + 32) [2; 3; 3; 4; 4; 4; 5; 5; 20]))
    (Some (Fin 2))
  = detectOutliers (map Fin [2; 3; 3; 4; 4; 4; 5; 5; 20]) (Some (Fin 2)).
Proof.
  apply (X9_detectOutliers_affine_invariant
           [2; 3; 3; 4; 4; 4; 5; 5; 20] 2 1.8 32).
  lra.
Defined.

(** [X10_confidence_level_ceiling] at the bundle of the scenario. *)
Lemma X10_confidence_level_ceiling_at_scenario :
  exists l,
    ConfidenceResult.level
      (calculateConfidence scenarioComponents testConfidenceConfig) = Fin l /\
    l <= 86 /\
    (stated_level scenarioComponents = Some "gold" ->
     25 <= reviews scenarioComponents -> l = 86).
Proof.
  apply (X10_confidence_level_ceiling scenarioComponents
           testConfidenceConfig 25).
  - cbn. literals. reflexivity.
  - lra.
  - exact I.
Defined.

(** [X12_feedback_score_and_zero_rating] at the ratings 2 and 4.8. *)
Lemma X12_feedback_score_and_zero_rating_at_scenario :
  exists x y,
    calculateFeedbackScore (withRating (Some (Fin 2)) scenarioComponents)
    = Fin x /\
    calculateFeedbackScore (withRating (Some (Fin 4.8)) scenarioComponents)
    = Fin y /\
    x = (2 - 1) * 25 /\ x <= y /\
    (0 < 2 < 3 -> x < 50) /\
    calculateFeedbackScore (withRating (Some (Fin 0)) scenarioComponents)
    = Fin 50 /\
    calculateFeedbackScore (withRating None scenarioComponents) = Fin 50.
Proof.
  apply (X12_feedback_score_and_zero_rating scenarioComponents 2 4.8); lra.
Defined.

(** [X13_usage_score_saturates] below and at the counts of the scenario. *)
Lemma X13_usage_score_saturates_at_scenario :
  exists x y,
    calculateUsageScore
      (withUsage (Some (Fin 500)) (Some (Fin 50)) (Some (Fin 15))
         scenarioComponents) = Fin x /\
    calculateUsageScore
      (withUsage (Some (Fin 10000)) (Some (Fin 500)) (Some (Fin 90))
         scenarioComponents) = Fin y /\
    0 <= x <= y /\ y <= 100 /\
    (1000 <= 500 -> 100 <= 50 -> 30 <= 15 -> x = 100) /\
    calculateUsageScore
      (withUsage (Some (Fin 0)) (Some (Fin 0)) (Some (Fin 0))
         scenarioComponents) = Fin 0 /\
    calculateUsageScore (noData None) = Fin 50.
Proof.
  apply (X13_usage_score_saturates scenarioComponents
           500 50 15 10000 500 90); lra.
Defined.


(** [X16_storage_mirrors_saves] at the three scores of the test-suite
    and a limit of 2. *)
Lemma X16_storage_mirrors_saves_at_test_scores :
  let scores := [testScore 80; testScore 85; testScore 90] in
  let store := saveAll newLocalReputationStorage scores in
  getReputationScore store "test-server"
  = last (savedFor "test-server" scores) /\
  getReputationHistory store "test-server" (Some 0%Z)
  = savedFor "test-server" scores /\
  getReputationHistory store "test-server" (Some 2%Z)
  = drop (length (savedFor "test-server" scores) - Z.to_nat 2)
      (savedFor "test-server" scores) /\
  (length (getReputationHistory store "test-server" (Some 2%Z))
   <= Z.to_nat 2)%nat /\
  (Forall (fun s => serverId s <> "test-server") scores ->
   getReputationScore store "test-server" = None /\
   getReputationHistory store "test-server" (Some 2%Z) = []).
Proof.
  apply (X16_storage_mirrors_saves
           [testScore 80; testScore 85; testScore 90] "test-server" 2).
  lia.
Defined.

(** [X21_unknown_algorithm_throws] on a client that knows the weighted
    algorithm only. *)
Lemma X21_unknown_algorithm_throws_at_custom_id :
  ReputationClient.calculateReputationScore
    (registered (newLocalReputationStorage (num := float))
       [createWeightedAlgorithm scenarioConfig])
    "2025-01-01T00:00:00.000Z" "2025-01-01T00:00:00.001Z"
    "test-server" "custom-v2"
  = (registered newLocalReputationStorage
       [createWeightedAlgorithm scenarioConfig],
     Thrown "Algorithm with ID custom-v2 not found").
Proof.
  apply (X21_unknown_algorithm_throws
           (newLocalReputationStorage (num := float))
           [createWeightedAlgorithm scenarioConfig]
           "2025-01-01T00:00:00.000Z" "2025-01-01T00:00:00.001Z"
           "test-server" "custom-v2").
  cbn. intros [H|[]]. discriminate H.
Defined.

(** [X22_calculated_score_is_saved] on a new client with the weighted
    algorithm of the scenario. *)
Lemma X22_calculated_score_is_saved_at_scenario :
  let this :=
    registered (newLocalReputationStorage (num := float))
      [createWeightedAlgorithm scenarioConfig] in
  let score :=
    weightedScore scenarioConfig "2025-01-01T00:00:00.001Z" "test-server"
      (getReputationData "2025-01-01T00:00:00.000Z" "test-server") in
  let this' :=
    (ReputationClient.calculateReputationScore this
       "2025-01-01T00:00:00.000Z" "2025-01-01T00:00:00.001Z"
       "test-server" "weighted-score-v1").1 in
  ReputationClient.getReputationScore this' "test-server" = Some score.
Proof.
  apply (X22_calculated_score_is_saved
           (registered (newLocalReputationStorage (num := float))
              [createWeightedAlgorithm scenarioConfig])
           (createWeightedAlgorithm scenarioConfig)
           "2025-01-01T00:00:00.000Z" "2025-01-01T00:00:00.001Z"
           "test-server" "weighted-score-v1").
  reflexivity.
Defined.

(** [X23_client_scores_every_server_alike] at the weights of the
    scenario, in binary64. *)
Lemma X23_client_scores_every_server_alike_at_scenario :
  exists score,
    (ReputationClient.calculateReputationScore
       (registered (newLocalReputationStorage (num := float))
          [createWeightedAlgorithm scenarioConfig])
       "2025-01-01T00:00:00.000Z" "2025-01-01T00:00:00.001Z"
       "test-server" "weighted-score-v1").2
    = Returned score /\
    serverId score = "test-server" /\
    lastUpdated score = "2025-01-01T00:00:00.001Z" /\
    categories score =
      Some [("performance", lit 95); ("verification", lit 100);
            ("feedback", lit 95); ("usage", lit 100)] /\
    dataPoints score = Some (lit 120) /\
    overallScore score = Some (lit 97).
Proof.
  exact (proj1 (X23_client_scores_every_server_alike
           (registered (newLocalReputationStorage (num := float))
              [createWeightedAlgorithm scenarioConfig])
           (lit 0.4) (lit 0.3) (lit 0.2) (lit 0.1) (lit 30) (lit 5)
           "2025-01-01T00:00:00.000Z" "2025-01-01T00:00:00.001Z"
           "test-server" "weighted-score-v1" eq_refl)).
Defined.

End MoreInstances.
